(** * OCUtils: the OdourCollect data preparation pipeline

    A shallow embedding of [odourcollect_utils.py]: the map-configuration
    loader [OCMapConfig], the file-type detection of [GenericOCData], the
    five filters of [OCFilterProvider], its runner, and the two dataset
    profiles.

    A pandas DataFrame is one mutable object: filters change it in place
    ([inplace=True], item assignment) and pass the same object on. The
    embedding threads the object explicitly, so that what a call leaves
    behind when it raises is part of its result. *)

From Stdlib Require Import String Ascii List ZArith Lia Bool.
Import ListNotations.
Open Scope string_scope.
Open Scope Z_scope.

(** ** Exceptions

    One constructor per exception the module can raise, named after the
    error kinds of the specification where it has a name for them; the
    Python class is given in the comment. *)
Inductive exn : Type :=
| UnsupportedFormat            (* AssertionError('file_type must be "csv" or "xlsx"') *)
| IndexError                   (* list index out of range *)
| ReadFailure                  (* whatever pd.read_csv / pd.read_excel raise *)
| UnknownFilter (msg : string) (* ValueError raised by OCFilterProvider.__init__ *)
| SchemaConflict               (* AssertionError raised by add_analyst_fields *)
| MalformedDate                (* pd.to_datetime on unparseable text *)
| MalformedDuration            (* pd.to_timedelta on unparseable text *)
| MalformedInteger             (* int() on non-numeric text *)
| OverflowError                (* int() result outside int64 *)
| NotASeries                   (* a repeated label selects a sub-frame, which has no
                                  .str and is refused by to_datetime / to_timedelta *)
| KeyError                     (* ocdata[label] for a label that is absent *)
| NotText                      (* a text coercion applied to a cell that is no text *)
| TypeError                    (* argument of type 'NoneType' is not iterable *)
| AttributeError               (* 'NoneType' object has no attribute ... *)
| ConfigNotFound               (* FileNotFoundError *)
| ConfigMalformed              (* SyntaxError re-raised by OCMapConfig.get *)
| EvalError.                   (* any other exception raised inside eval *)

(** ** Python string primitives *)

Definition dot : ascii := "."%char.
Definition slash : ascii := "/"%char.
Definition space : ascii := " "%char.

(** [s.rfind(c)]: index of the last occurrence of [c], or [-1]. *)
Fixpoint rfind (c : ascii) (s : string) : Z :=
  match s with
  | EmptyString => -1
  | String x r =>
      let k := rfind c r in
      if 0 <=? k then k + 1 else if Ascii.eqb x c then 0 else -1
  end.

(** [s[n:]] and [s[:n]] for [0 <= n]. *)
Fixpoint drop (n : nat) (s : string) : string :=
  match n, s with
  | O, _ => s
  | S _, EmptyString => EmptyString
  | S k, String _ r => drop k r
  end.

Fixpoint take (n : nat) (s : string) : string :=
  match n, s with
  | O, _ => EmptyString
  | S _, EmptyString => EmptyString
  | S k, String x r => String x (take k r)
  end.

(** [s[i:i+1]]: the one-character slice, empty out of range. *)
Definition char_at (s : string) (i : Z) : string :=
  take 1 (drop (Z.to_nat i) s).

(** [c in s] for a single character. *)
Fixpoint occurs (c : ascii) (s : string) : bool :=
  match s with
  | EmptyString => false
  | String x r => Ascii.eqb x c || occurs c r
  end.

(** [s.split(c)] with no limit on the number of splits ([maxsplit = -1]). *)
Fixpoint split (c : ascii) (s : string) : list string :=
  match s with
  | EmptyString => [EmptyString]
  | String x r =>
      if Ascii.eqb x c then EmptyString :: split c r
      else match split c r with
           | h :: t => String x h :: t
           | [] => [String x EmptyString]
           end
  end.

(** [s.replace(c, '')]. *)
Fixpoint remove_char (c : ascii) (s : string) : string :=
  match s with
  | EmptyString => EmptyString
  | String x r => if Ascii.eqb x c then remove_char c r else String x (remove_char c r)
  end.

(** [needle in s] for strings. *)
Fixpoint is_prefix (p s : string) : bool :=
  match p, s with
  | EmptyString, _ => true
  | String _ _, EmptyString => false
  | String a p', String b s' => Ascii.eqb a b && is_prefix p' s'
  end.

Fixpoint contains (needle s : string) : bool :=
  is_prefix needle s ||
  match s with
  | EmptyString => false
  | String _ r => contains needle r
  end.

Definition mem (x : string) (l : list string) : bool :=
  existsb (String.eqb x) l.

(** ** os.path (POSIX flavour) *)
Module posixpath.

(** [basename(p)]: [i = p.rfind('/') + 1; return p[i:]]. *)
Definition basename (p : string) : string :=
  drop (Z.to_nat (rfind slash p + 1)) p.

(** The loop of [genericpath._splitext] that skips leading dots: from
    [filenameIndex] up to [dotIndex], the first character that is no dot
    makes the split happen; [fuel] is [dotIndex - filenameIndex], the
    number of times the loop can run. *)
Fixpoint skip_leading_dots (p : string) (dotIndex filenameIndex : Z) (fuel : nat)
  : string * string :=
  match fuel with
  | O => (p, EmptyString)
  | S k =>
      if String.eqb (char_at p filenameIndex) "." then
        skip_leading_dots p dotIndex (filenameIndex + 1) k
      else (take (Z.to_nat dotIndex) p, drop (Z.to_nat dotIndex) p)
  end.

(** [splitext(p)]: (root, ext); [ext] is empty or starts with a dot. *)
Definition splitext (p : string) : string * string :=
  let sepIndex := rfind slash p in
  let dotIndex := rfind dot p in
  if sepIndex <? dotIndex then
    skip_leading_dots p dotIndex (sepIndex + 1) (Z.to_nat (dotIndex - (sepIndex + 1)))
  else (p, EmptyString).

(** [join(a, b)] for one component [b]. *)
Definition join (a b : string) : string :=
  if is_prefix "/" b then b
  else if String.eqb a "" || String.eqb (char_at a (Z.of_nat (String.length a) - 1)) "/"
       then a ++ b
       else a ++ "/" ++ b.

End posixpath.

(** ** OCMapConfig *)
Module OCMapConfig.

(** What [eval] can give back: Python values, as far as the loader tells
    them apart. *)
Inductive pyobj : Type :=
| PyDict (items : list (string * string))
| PyInt (n : Z)
| PyStr (s : string)
| PyList (items : list string)
| PyNone.

Inductive eval_result : Type :=
| Value (v : pyobj)
| SyntaxError
| OtherError.

Definition is_dict (v : pyobj) : bool :=
  match v with PyDict _ => true | _ => false end.

Section Get.

(** The builtin [eval] and the file system are the environment of the
    class: [isdir p], [isfile p] and, for a regular file, its text
    [read p]. *)
Variable eval : string -> eval_result.
Variable isdir isfile : string -> bool.
Variable read : string -> string.

(** The constructor: the value of [self.conf_folder], or the
    FileNotFoundError for a missing folder. *)
Definition __init__ (conf_folder : string) : exn + string :=
  let conf_folder := fst (posixpath.splitext (posixpath.basename conf_folder)) in
  if isdir conf_folder then inr conf_folder else inl ConfigNotFound.

(** [self.get(conf_name)], with [conf_folder] the value of
    [self.conf_folder]. *)
Definition get (conf_folder conf_name : string) : exn + pyobj :=
  let conf_name := fst (posixpath.splitext (posixpath.basename conf_name)) in
  let map_conf_path := posixpath.join conf_folder (conf_name ++ ".conf") in
  if isfile map_conf_path then
    let conf_contents := read map_conf_path in
    match eval conf_contents with
    | Value v => inr v
    | SyntaxError => inl ConfigMalformed
    | OtherError => inl EvalError
    end
  else inl ConfigNotFound.

End Get.

End OCMapConfig.

(** ** Tables

    A DataFrame: the length of its index and its columns in order, each a
    label and one cell per row. Labels may repeat (pandas allows it, and
    [rename] can produce it), so the columns are an association list. *)
Record frame (A : Type) : Type := mkFrame {
  nrows : nat;
  columns : list (string * list A)
}.
Arguments mkFrame {A} _ _.
Arguments nrows {A} _.
Arguments columns {A} _.

Definition labels {A} (f : frame A) : list string := map fst (columns f).

(** [label in ocdata]. *)
Definition has {A} (label : string) (f : frame A) : bool := mem label (labels f).

(** Every column with the given label, in order: what [ocdata[label]]
    selects (a Series when there is one, a sub-frame when there are more). *)
Definition select {A} (label : string) (f : frame A) : list (list A) :=
  map snd (filter (fun c => String.eqb (fst c) label) (columns f)).

(** All columns have one cell per row. *)
Definition well_formed {A} (f : frame A) : Prop :=
  Forall (fun c => length (snd c) = nrows f) (columns f).

(** [ocdata.rename(columns={old: new}, inplace=True)]. *)
Definition rename {A} (old new : string) (f : frame A) : frame A :=
  mkFrame (nrows f)
    (map (fun c => (if String.eqb (fst c) old then new else fst c, snd c)) (columns f)).

(** Replace the cells of every column labelled [label] by [g] of them. *)
Definition map_label {A} (label : string) (g : list A -> list A) (f : frame A) : frame A :=
  mkFrame (nrows f)
    (map (fun c => (fst c, if String.eqb (fst c) label then g (snd c) else snd c))
         (columns f)).

(** [ocdata[label] = v] for a scalar [v]: a new last column when the label
    is absent, otherwise every column of that label is overwritten. *)
Definition setitem_scalar {A} (label : string) (v : A) (f : frame A) : frame A :=
  if has label f then map_label label (fun _ => repeat v (nrows f)) f
  else mkFrame (nrows f) (columns f ++ [(label, repeat v (nrows f))])%list.

(** ** GenericOCData *)
Module GenericOCData.

Section Loader.

(** [pd.read_csv] and [pd.read_excel] as the constructor calls them: the
    DataFrame read, or a failure. The constructor stores what they give
    and does not look into it, so the type of the tables is left open
    (with [dtype=object] a csv file gives text in every cell, a
    spreadsheet keeps its numbers and dates as they are). *)
Variable table : Type.
Variable read_csv read_excel : string -> option table.

Definition __init__ (file_name file_type : string) : exn + table :=
  let detected :=
    if String.eqb file_type "auto" then
      nth_error (split dot (snd (posixpath.splitext file_name))) 1
    else Some file_type in
  match detected with
  | None => inl IndexError
  | Some file_type =>
      if String.eqb file_type "csv" then
        match read_csv file_name with Some d => inr d | None => inl ReadFailure end
      else if String.eqb file_type "xlsx" || String.eqb file_type "xls" then
        match read_excel file_name with Some d => inr d | None => inl ReadFailure end
      else inl UnsupportedFormat
  end.

End Loader.

Arguments __init__ {table} read_csv read_excel file_name file_type.

End GenericOCData.

(** ** In-place effects

    A computation over a mutable object of type [S]: it leaves the object
    in some state whether it returns or raises. *)
Definition M (S A : Type) : Type := S -> S * (exn + A).

Definition ret {S A} (a : A) : M S A := fun s => (s, inr a).

Definition raise {S A} (e : exn) : M S A := fun s => (s, inl e).

Definition bind {S A B} (m : M S A) (k : A -> M S B) : M S B :=
  fun s =>
    match m s with
    | (s', inr a) => k a s'
    | (s', inl e) => (s', inl e)
    end.

Definition modify {S} (g : S -> S) : M S unit := fun s => (g s, inr tt).

Definition when {S} (b : bool) (m : M S unit) : M S unit :=
  if b then m else ret tt.

Notation "m1 ;; m2" := (bind m1 (fun _ => m2)) (at level 61, right associativity).

(** [for x in l: body(x)]. *)
Fixpoint for_each {S A} (l : list A) (body : A -> M S unit) : M S unit :=
  match l with
  | [] => ret tt
  | x :: r => body x ;; for_each r body
  end.

(** Apply a fallible conversion to every element, failing on the first
    element that fails. *)
Fixpoint traverse {A B} (g : A -> exn + B) (l : list A) : exn + list B :=
  match l with
  | [] => inr []
  | x :: r =>
      match g x with
      | inl e => inl e
      | inr y => match traverse g r with
                 | inl e => inl e
                 | inr ys => inr (y :: ys)
                 end
      end
  end.

(** ** Cells

    The filters are followed on tables whose cells are text, as a csv
    file loads with [dtype=object]. After [type_casting] a cell is a
    category label, a date, a number of minutes or an integer. *)
Inductive cell : Type :=
| Text (s : string)     (* dtype object, a str *)
| Label (s : string)    (* dtype category, the label kept as it was *)
| Date (d : Z)          (* dtype datetime64 *)
| Minutes (m : Z)       (* dtype float64 holding a whole number, after round() *)
| Int (n : Z).          (* dtype int64 *)



Definition as_cells (f : frame string) : frame cell :=
  mkFrame (nrows f) (map (fun c => (fst c, map Text (snd c))) (columns f)).

(** ** Dictionaries of literals *)
Fixpoint lookup {V} (k : string) (d : list (string * V)) : option V :=
  match d with
  | [] => None
  | (k', v) :: r => if String.eqb k k' then Some v else lookup k r
  end.

(** One value through a replacement dictionary: unknown values stay. *)
Definition substitute (d : list (string * string)) (v : string) : string :=
  match lookup v d with
  | Some w => w
  | None => v
  end.

(** [ocdata.replace({label: {old: new}}, inplace=True)]: every column
    whose label is a key of the outer dictionary has its values put
    through the inner one; labels that are absent are skipped. *)
Definition replace (to_replace : list (string * list (string * string)))
  (f : frame string) : frame string :=
  mkFrame (nrows f)
    (map (fun c => (fst c,
                    match lookup (fst c) to_replace with
                    | Some d => map (substitute d) (snd c)
                    | None => snd c
                    end))
         (columns f)).

(** ** Text to number coercions of pandas and Python *)

Definition digit_of (c : ascii) : option Z :=
  let n := Z.of_nat (nat_of_ascii c) in
  if (48 <=? n) && (n <=? 57) then Some (n - 48) else None.

Fixpoint digits_from (acc : Z) (s : string) : option Z :=
  match s with
  | EmptyString => Some acc
  | String c r =>
      match digit_of c with
      | Some d => digits_from (10 * acc + d) r
      | None => None
      end
  end.

(** A non-empty run of decimal digits. *)
Definition decimal (s : string) : option Z :=
  match s with
  | EmptyString => None
  | _ => digits_from 0 s
  end.

(** [int(s)] for an optional sign followed by decimal digits, the texts
    the recoding writes. (Python reads more: digits grouped by
    underscores, white space around the number, digits of other
    scripts; for those this function answers [None].) *)
Definition py_int (s : string) : option Z :=
  match s with
  | String "+" r => decimal r
  | String "-" r => option_map Z.opp (decimal r)
  | _ => decimal s
  end.

(** [astype(int)]: the parsed value has to fit int64. *)
Definition astype_int (s : string) : exn + Z :=
  match py_int s with
  | None => inl MalformedInteger
  | Some n =>
      if (- 2 ^ 63 <=? n) && (n <? 2 ^ 63) then inr n else inl OverflowError
  end.

(** [HH:MM:SS] as a number of seconds. *)
Definition clock_seconds (s : string) : option Z :=
  match split ":" s with
  | [h; m; sec] =>
      match decimal h, decimal m, decimal sec with
      | Some h, Some m, Some sec => Some (h * 3600 + m * 60 + sec)
      | _, _, _ => None
      end
  | _ => None
  end.

(** A Timedelta counts nanoseconds in an int64: a number of seconds
    past that range is refused. *)
Definition in_timedelta_range (sec : Z) : option Z :=
  if sec * 1000000000 <=? 2 ^ 63 - 1 then Some sec else None.

(** [pd.to_timedelta] on the two shapes the pipeline is written for,
    [HH:MM:SS] and [D day HH:MM:SS] (or [days]), in seconds. (pandas
    reads more: a blank as NaT, a bare number as nanoseconds, signs,
    fractions of a second, units in words; for those this function
    answers [None].) *)
Definition to_timedelta (s : string) : option Z :=
  match split space s with
  | [t] =>
      match clock_seconds t with
      | Some sec => in_timedelta_range sec
      | None => None
      end
  | [d; unit; t] =>
      if String.eqb unit "day" || String.eqb unit "days" then
        match decimal d, clock_seconds t with
        | Some d, Some sec => in_timedelta_range (d * 86400 + sec)
        | _, _ => None
        end
      else None
  | _ => None
  end.

(** [round()] of [num / den]: to the nearest whole number, a tie to the
    even one. *)
Definition round_half_even (num den : Z) : Z :=
  let q := num / den in
  let r := num mod den in
  if 2 * r <? den then q
  else if den <? 2 * r then q + 1
  else if Z.even q then q else q + 1.

(** [(pd.to_timedelta(v) / pd.Timedelta('60s')).round()] on one value. *)
Definition to_minutes (s : string) : exn + Z :=
  match to_timedelta s with
  | Some sec => inr (round_half_even sec 60)
  | None => inl MalformedDuration
  end.

(** ** OCFilterProvider *)
Module OCFilterProvider.

(** *** fix_typos *)
Definition fix_typos (ocdata : frame string) : frame string :=
  let ocdata :=
    if has "Intentity" ocdata then rename "Intentity" "Intensity" ocdata else ocdata in
  let ocdata := if has "day" ocdata then rename "day" "Day" ocdata else ocdata in
  let ocdata := if has "time" ocdata then rename "time" "Time" ocdata else ocdata in
  ocdata.

(** *** fix_userids *)
Definition fix_userids (ocdata : frame string) : frame string :=
  if negb (has "User" ocdata) then setitem_scalar "User" "" ocdata else ocdata.

(** *** odour_literals_to_numbers *)
Definition annoy_mapping : list (string * string) :=
  [("Extremely unpleasant", "-4");
   ("Very unpleasant", "-3");
   ("Unpleasant", "-2");
   ("Slightly unpleasant", "-1");
   ("Neutral", "0");
   ("Slightly pleasant", "1");
   ("Pleasant", "2");
   ("Very pleasant", "3");
   ("Extremely pleasant", "4");
   ("", "0")].

Definition intensity_mapping : list (string * string) :=
  [("Extremely strong", "6");
   ("Very strong", "5");
   ("Strong", "4");
   ("Distinct", "3");
   ("Weak", "2");
   ("Very weak", "1");
   ("Not perceptible", "0");
   ("", "0")].

Definition duration_mapping : list (string * string) :=
  [("Continuous odor throughout the day", "1 day 00:00:00");
   ("Continuous odor in the last hour", "01:00:00");
   ("Punctual odor", "00:05:00");
   ("", "00:00:00")].

Definition intensity_and_annoy_mapping : list (string * list (string * string)) :=
  [("Intensity", intensity_mapping);
   ("Annoy", annoy_mapping);
   ("Duration", duration_mapping)].

Definition bastard_tone_mapping : list (string * string) :=
  [("Moderate unpleasant", "-3");
   ("Moderate pleasant", "3");
   ("Extremely pleasan", "4")].

Definition odour_literals_to_numbers (ocdata : frame string) : frame string :=
  let ocdata := replace intensity_and_annoy_mapping ocdata in
  let ocdata := replace [("Annoy", bastard_tone_mapping)] ocdata in
  ocdata.

(** *** add_analyst_fields *)
Definition analyst_fields : list string :=
  ["Typeoverride"; "Subtypeoverride"; "Intensityoverride"; "Annoyoverride";
   "Analystcomments"].

Definition add_analyst_field (analystextrafield : string) : M (frame string) unit :=
  fun ocdata =>
    if has analystextrafield ocdata then raise SchemaConflict ocdata
    else modify (setitem_scalar analystextrafield "") ocdata.

Definition add_analyst_fields : M (frame string) unit :=
  for_each analyst_fields add_analyst_field.

(** *** type_casting *)
Definition category_types : list string :=
  ["Type"; "Subtype"; "Zone"; "Status"; "Origin"; "User"; "Intensityoverride";
   "Annoyoverride"; "Duration"].
Definition datetime_types : list string := ["Day"].
Definition timedelta_types : list string := ["Time"; "Duration"].
Definition int_types : list string := ["Intensity"; "Annoy"].

(** [astype('category')] on one cell: a text becomes a label with the
    same text. (A cell that is already cast is kept; [type_casting] only
    tags text and labels.) *)
Definition astype_category (c : cell) : cell :=
  match c with
  | Text s => Label s
  | _ => c
  end.

(** The str value of a cell of an object or category column. The casts
    of [type_casting] read nothing else ([type_casting_raises_only]). *)
Definition str_value (c : cell) : exn + string :=
  match c with
  | Text s | Label s => inr s
  | _ => inl NotText
  end.

(** A conversion of str values, applied to a whole Series. *)
Definition on_strs {B} (g : string -> exn + B) (wrap : B -> cell)
  (xs : list cell) : exn + list cell :=
  match traverse str_value xs with
  | inl e => inl e
  | inr ss =>
      match traverse g ss with
      | inl e => inl e
      | inr ys => inr (map wrap ys)
      end
  end.

(** [ocdata[column] = g(ocdata[column])] for a [g] that needs a Series:
    the object is changed only when [g] returns. *)
Definition cast_series (column : string) (g : list cell -> exn + list cell)
  : M (frame cell) unit :=
  fun ocdata =>
    match select column ocdata with
    | [] => raise KeyError ocdata
    | [xs] =>
        match g xs with
        | inr ys => modify (map_label column (fun _ => ys)) ocdata
        | inl e => raise e ocdata
        end
    | _ :: _ :: _ => raise NotASeries ocdata
    end.

Section Casting.

(** [pd.to_datetime] on one text: its date, when the text is one. *)
Variable to_datetime : string -> option Z.

Definition parse_date (s : string) : exn + Z :=
  match to_datetime s with
  | Some d => inr d
  | None => inl MalformedDate
  end.

(** The body of the loop [for column in ocdata]: the four tests, in the
    order of the source, each reading [ocdata[column]] and assigning the
    converted Series back. The two statements of the duration cast
    (division by [pd.Timedelta('60s')], then [round()]) are one
    conversion, [to_minutes]; the three statements of the integer cast
    ([.str.replace(' ', '')], [astype(str)], [astype(int)]) are three
    assignments, so that a failing [astype(int)] leaves the stripped
    text behind. *)
Definition cast_column (column : string) : M (frame cell) unit :=
  when (mem column category_types)
    (modify (map_label column (map astype_category))) ;;
  when (mem column datetime_types)
    (cast_series column (on_strs parse_date Date)) ;;
  when (mem column timedelta_types)
    (cast_series column (on_strs to_minutes Minutes)) ;;
  when (mem column int_types)
    (cast_series column (on_strs (fun s => inr (remove_char space s)) Text) ;;
     cast_series column (on_strs (fun s => inr s) Text) ;;
     cast_series column (on_strs astype_int Int)).

(** The function ends without a [return]: its value is [None], here [tt]. *)
Definition type_casting : M (frame cell) unit :=
  fun ocdata => for_each (labels ocdata) cast_column ocdata.

(** *** The runner *)

(** The value of the variable [data_frame] of [__run__], which is also
    the argument of the next filter: the DataFrame while every filter so
    far returned it, [None] once one returned nothing. In both cases the
    DataFrame object itself is kept, as the filters left it. *)
Inductive handle : Type :=
| Table (ocdata : frame string)
| NoneAfter (ocdata : frame cell).

(** The DataFrame object, whatever the variable holds. *)
Definition object_of (v : handle) : frame cell :=
  match v with
  | Table ocdata => as_cells ocdata
  | NoneAfter ocdata => ocdata
  end.

Inductive call_result : Type :=
| Returns (v : handle)
| Raises (e : exn) (object : frame cell).

(** [dir(self)] without the names that start with an underscore. *)
Definition AVAILABLE : list string :=
  ["add_analyst_fields"; "fix_typos"; "fix_userids"; "odour_literals_to_numbers";
   "type_casting"].

(** [getattr(self, data_filter)(data_frame)]. On [None] the four filters
    that test [... in ocdata] or iterate raise TypeError, and
    [odour_literals_to_numbers], which calls [ocdata.replace], raises
    AttributeError, as [getattr] does for a name that is no member. *)
Definition call_filter (data_filter : string) (arg : handle) : call_result :=
  if negb (mem data_filter AVAILABLE) then Raises AttributeError (object_of arg)
  else
    match arg with
    | NoneAfter object =>
        if String.eqb data_filter "odour_literals_to_numbers"
        then Raises AttributeError object else Raises TypeError object
    | Table ocdata =>
        if String.eqb data_filter "fix_typos" then Returns (Table (fix_typos ocdata))
        else if String.eqb data_filter "fix_userids" then
          Returns (Table (fix_userids ocdata))
        else if String.eqb data_filter "odour_literals_to_numbers" then
          Returns (Table (odour_literals_to_numbers ocdata))
        else if String.eqb data_filter "add_analyst_fields" then
          match add_analyst_fields ocdata with
          | (ocdata, inr _) => Returns (Table ocdata)
          | (ocdata, inl e) => Raises e (as_cells ocdata)
          end
        else
          match type_casting (as_cells ocdata) with
          | (ocdata, inr _) => Returns (NoneAfter ocdata)
          | (ocdata, inl e) => Raises e ocdata
          end
    end.

(** How a run ends: [stdout] lists the filters announced by
    [print('Running filters: ...')], in order. *)
Inductive outcome : Type :=
| Finished (v : handle) (stdout : list string)
| Aborted (e : exn) (object : frame cell) (stdout : list string).

Fixpoint __run__ (filter_list : list string) (data_frame : handle)
  (stdout : list string) : outcome :=
  match filter_list with
  | [] => Finished data_frame stdout
  | data_filter :: rest =>
      let stdout := (stdout ++ [data_filter])%list in
      match call_filter data_filter data_frame with
      | Returns data_frame => __run__ rest data_frame stdout
      | Raises e object => Aborted e object stdout
      end
  end.

(** [str(self.AVAILABLE)], the names in the order of [AVAILABLE] (a set
    prints its members in an order of its own). *)
Definition quoted (name : string) : string := "'" ++ name ++ "'".

Definition str_of_set (names : list string) : string :=
  "{" ++ String.concat ", " (map quoted names) ++ "}".

Definition newline : string := String (ascii_of_nat 10) EmptyString.

Definition unknown_filter_message : string :=
  "The list of OC data filters specified includes at least one not known."
  ++ "Available filters:" ++ newline ++ str_of_set AVAILABLE.

(** [set(filter_list).issubset(self.AVAILABLE)]. *)
Definition issubset (l1 l2 : list string) : bool :=
  forallb (fun x => mem x l2) l1.

(** The constructor: the check of the requested names, then the run. *)
Definition __init__ (data_frame : frame string) (filter_list : list string) : outcome :=
  if negb (issubset filter_list AVAILABLE) then
    Aborted (UnknownFilter unknown_filter_message) (as_cells data_frame) []
  else __run__ filter_list (Table data_frame) [].

End Casting.

End OCFilterProvider.

(** ** The two dataset profiles *)
Definition OCObservationData_filters : list string :=
  ["fix_typos"; "fix_userids"; "odour_literals_to_numbers"; "add_analyst_fields";
   "type_casting"].

Definition OCAnalysisData_filters : list string := ["type_casting"].

(** ** Vocabulary of the statements *)

(** The label [fix_typos] gives a column: its three guarded renames seen
    as one relabelling. *)
Definition canonical (l : string) : string :=
  if String.eqb l "Intentity" then "Intensity"
  else if String.eqb l "day" then "Day"
  else if String.eqb l "time" then "Time"
  else l.

(** The renames of [fix_typos], and the tables in which no mistyped
    label stands next to the label it is renamed to. *)
Definition typos : list (string * string) :=
  [("Intentity", "Intensity"); ("day", "Day"); ("time", "Time")].

Definition clash_free (ocdata : frame string) : bool :=
  forallb (fun t => negb (has (fst t) ocdata && has (snd t) ocdata)) typos.

(** The longest prefix of [l] whose elements satisfy [p]. *)
Fixpoint take_while {A} (p : A -> bool) (l : list A) : list A :=
  match l with
  | [] => []
  | x :: r => if p x then x :: take_while p r else []
  end.

(** A table with blank columns of the given labels added at its end. *)
Definition extend (f : frame string) (new : list string) : frame string :=
  mkFrame (nrows f)
    (columns f ++ map (fun label => (label, repeat "" (nrows f))) new)%list.

(** [P] holds of the object after [m] whenever it held before, whether
    [m] returns or raises. *)
Definition stable {S A} (P : S -> Prop) (m : M S A) : Prop :=
  forall s, P s -> P (fst (m s)).

(** [m], started where [P] holds, returns where [Q] holds or raises an
    exception in [E]. *)
Definition hoare {S A} (P : S -> Prop) (m : M S A) (Q : S -> Prop)
  (E : exn -> Prop) : Prop :=
  forall s, P s ->
            match m s with
            | (s', inr _) => Q s'
            | (_, inl e) => E e
            end.

(** A cell of an object or category column: a str, tagged or not. *)
Definition textual (c : cell) : Prop :=
  match c with
  | Text _ | Label _ => True
  | _ => False
  end.

(** The columns whose label is in [rest] hold text only. *)
Definition textual_on (rest : list string) (s : frame cell) : Prop :=
  forall l xs, In (l, xs) (columns s) -> In l rest -> Forall textual xs.

(** The exceptions a cast of text can end in. *)
Definition casting_error (e : exn) : Prop :=
  In e [MalformedDate; MalformedDuration; MalformedInteger; OverflowError; NotASeries].

(** What the loop of [type_casting] keeps, with [L] the labels at its
    start and [rest] the labels still to come: the labels, and text in
    every column the loop has yet to reach. *)
Definition loop_invariant (L rest : list string) (s : frame cell) : Prop :=
  labels s = L /\ textual_on rest s.

(** Every character of [s] is a dot (so also the empty text). *)
Fixpoint all_dots (s : string) : bool :=
  match s with
  | EmptyString => true
  | String x r => Ascii.eqb x dot && all_dots r
  end.

(** What [odour_literals_to_numbers] makes of one value of the column
    [label]: the two replacements, one after the other. *)
Definition recode (label v : string) : string :=
  let v := match lookup label OCFilterProvider.intensity_and_annoy_mapping with
           | Some d => substitute d v
           | None => v
           end in
  match lookup label [("Annoy", OCFilterProvider.bastard_tone_mapping)] with
  | Some d => substitute d v
  | None => v
  end.

(** * Properties *)

(** ** Strings and paths *)

Lemma rfind_lower (c : ascii) (s : string) : -1 <= rfind c s.
Proof.
  induction s as [|x r IH]; simpl; [lia|].
  destruct (0 <=? rfind c r) eqn:E; [apply Z.leb_le in E; lia|].
  destruct (Ascii.eqb x c); lia.
Qed.

(** When [c] does not occur from position [n] on, its last occurrence is
    before [n]. *)
Lemma rfind_before (c : ascii) (s : string) :
  forall n, occurs c (drop n s) = false -> rfind c s < Z.of_nat n.
Proof.
  induction s as [|x r IH]; intros n H; simpl.
  - lia.
  - destruct n as [|k].
    + simpl in H. apply orb_false_iff in H as [Hx Hr].
      specialize (IH 0%nat Hr). simpl in IH.
      destruct (0 <=? rfind c r) eqn:E; [apply Z.leb_le in E; lia|].
      rewrite Hx. lia.
    + simpl in H. specialize (IH k H).
      destruct (0 <=? rfind c r) eqn:E; [lia|].
      destruct (Ascii.eqb x c); lia.
Qed.

(** From its last occurrence on, a string reads [c] and then no [c]. *)
Lemma drop_rfind (c : ascii) (s : string) :
  0 <= rfind c s ->
  exists rest, drop (Z.to_nat (rfind c s)) s = String c rest /\ occurs c rest = false.
Proof.
  induction s as [|x r IH]; simpl; [lia|].
  destruct (0 <=? rfind c r) eqn:E.
  - apply Z.leb_le in E. intros _.
    destruct (IH E) as [rest [Hd Ho]]. exists rest. split; [|exact Ho].
    replace (Z.to_nat (rfind c r + 1)) with (S (Z.to_nat (rfind c r))) by lia.
    exact Hd.
  - apply Z.leb_gt in E.
    destruct (Ascii.eqb_spec x c) as [->|Hne]; [|lia].
    intros _. exists r. split; [reflexivity|].
    pose proof (rfind_lower c r) as L.
    assert (Hr : rfind c r = -1) by lia.
    clear - Hr. induction r as [|y t IHt]; [reflexivity|].
    simpl in Hr. simpl.
    destruct (0 <=? rfind c t) eqn:E; [apply Z.leb_le in E; lia|].
    destruct (Ascii.eqb y c); [lia|].
    apply Z.leb_gt in E. pose proof (rfind_lower c t). simpl. apply IHt. lia.
Qed.

Lemma split_without (c : ascii) (s : string) :
  occurs c s = false -> split c s = [s].
Proof.
  induction s as [|x r IH]; simpl; [reflexivity|].
  intros H. apply orb_false_iff in H as [Hx Hr].
  rewrite Hx, (IH Hr). reflexivity.
Qed.

Lemma skip_leading_dots_ext (p : string) (dotIndex : Z) (fuel : nat) :
  forall filenameIndex,
    snd (posixpath.skip_leading_dots p dotIndex filenameIndex fuel) = EmptyString \/
    snd (posixpath.skip_leading_dots p dotIndex filenameIndex fuel)
    = drop (Z.to_nat dotIndex) p.
Proof.
  induction fuel as [|k IH]; intros i; simpl.
  - left. reflexivity.
  - destruct (String.eqb (char_at p i) "."); [apply IH|right; reflexivity].
Qed.

(** The extension [splitext] gives is empty, or a dot followed by text
    without a dot. *)
Lemma splitext_ext (p : string) :
  snd (posixpath.splitext p) = EmptyString \/
  exists ext, snd (posixpath.splitext p) = String dot ext /\ occurs dot ext = false.
Proof.
  unfold posixpath.splitext.
  destruct (rfind slash p <? rfind dot p) eqn:E; [|left; reflexivity].
  apply Z.ltb_lt in E. pose proof (rfind_lower slash p) as L.
  destruct (skip_leading_dots_ext p (rfind dot p)
              (Z.to_nat (rfind dot p - (rfind slash p + 1))) (rfind slash p + 1))
    as [H|H]; [left; exact H|right].
  rewrite H. apply drop_rfind. lia.
Qed.

(** A path whose last component has no dot has no extension. *)
Lemma splitext_no_dot (p : string) :
  occurs dot (posixpath.basename p) = false -> posixpath.splitext p = (p, EmptyString).
Proof.
  unfold posixpath.basename, posixpath.splitext. intros H.
  apply rfind_before in H. pose proof (rfind_lower slash p) as L.
  destruct (rfind slash p <? rfind dot p) eqn:E; [|reflexivity].
  apply Z.ltb_lt in E. lia.
Qed.

(** ** GenericOCData *)

Section LoaderFacts.

Variable table : Type.
Variable read_csv read_excel : string -> option table.

(** C10. Under the [auto] type hint, a path whose basename has no dot
    makes the constructor raise IndexError (from indexing the split
    extension), not the AssertionError of an unsupported type; and
    when the constructor does raise that AssertionError under [auto],
    the path has an extension, a dot followed by a suffix that is none
    of csv, xlsx, xls. *)
Theorem auto_detection_index_error (file_name : string) :
  (occurs dot (posixpath.basename file_name) = false ->
   GenericOCData.__init__ read_csv read_excel file_name "auto" = inl IndexError) /\
  (GenericOCData.__init__ read_csv read_excel file_name "auto" = inl UnsupportedFormat ->
   exists ext,
     snd (posixpath.splitext file_name) = String dot ext /\
     occurs dot ext = false /\
     ext <> "csv" /\ ext <> "xlsx" /\ ext <> "xls").
Proof.
  unfold GenericOCData.__init__. simpl (String.eqb "auto" "auto"). cbv iota.
  split.
  - intros H. rewrite (splitext_no_dot _ H). reflexivity.
  - destruct (splitext_ext file_name) as [E|[ext [E Ho]]]; rewrite E.
    + simpl. discriminate.
    + intros H. exists ext. split; [reflexivity|]. split; [exact Ho|].
      cbn [split] in H. unfold dot in H at 1 2. rewrite Ascii.eqb_refl in H.
      fold dot in H. rewrite (split_without _ _ Ho) in H.
      cbn [nth_error] in H.
      destruct (String.eqb_spec ext "csv") as [->|N1].
      { destruct (read_csv file_name); discriminate. }
      destruct (String.eqb_spec ext "xlsx") as [->|N2].
      { simpl in H. destruct (read_excel file_name); discriminate. }
      destruct (String.eqb_spec ext "xls") as [->|N3].
      { simpl in H. destruct (read_excel file_name); discriminate. }
      auto.
Qed.

End LoaderFacts.

Lemma auto_detection_index_error_witness :
  GenericOCData.__init__ (table := frame string) (fun _ => None) (fun _ => None)
    "exports.2020/observations" "auto"
  = inl IndexError /\
  exists ext,
    snd (posixpath.splitext "observations.txt") = String dot ext /\
    occurs dot ext = false /\ ext <> "csv" /\ ext <> "xlsx" /\ ext <> "xls".
Proof.
  split.
  - apply (proj1 (auto_detection_index_error (frame string)
                    (fun _ => None) (fun _ => None) "exports.2020/observations")).
    reflexivity.
  - apply (proj2 (auto_detection_index_error (frame string)
                    (fun _ => None) (fun _ => None) "observations.txt")).
    reflexivity.
Defined.

(** ** OCMapConfig *)

Section ConfigFacts.

Variable eval : string -> OCMapConfig.eval_result.
Variable isfile : string -> bool.
Variable read : string -> string.

(** [get] hands back whatever [eval] made of the file's text. *)
Lemma get_returns_eval (conf_folder conf_name : string) (v : OCMapConfig.pyobj) :
  let path :=
    posixpath.join conf_folder
      (fst (posixpath.splitext (posixpath.basename conf_name)) ++ ".conf") in
  isfile path = true ->
  eval (read path) = OCMapConfig.Value v ->
  OCMapConfig.get eval isfile read conf_folder conf_name = inr v.
Proof.
  intros path Hf He. unfold OCMapConfig.get. fold path. rewrite Hf, He. reflexivity.
Qed.

(** [get] raises FileNotFoundError exactly when the resolved path is no
    file. *)
Lemma get_not_found_iff (conf_folder conf_name : string) :
  OCMapConfig.get eval isfile read conf_folder conf_name = inl ConfigNotFound <->
  isfile (posixpath.join conf_folder
            (fst (posixpath.splitext (posixpath.basename conf_name)) ++ ".conf"))
  = false.
Proof.
  unfold OCMapConfig.get.
  destruct (isfile _) eqn:E.
  - split; [|discriminate].
    destruct (eval _); discriminate.
  - split; reflexivity.
Qed.

(** C6. A configuration file [mapconf/m.conf] whose text is [42]: [eval]
    makes the integer 42 of it, and [get] returns that integer, a value
    that is no dictionary, without raising. *)
Theorem get_returns_non_dictionary :
  isfile "mapconf/m.conf" = true ->
  read "mapconf/m.conf" = "42" ->
  eval "42" = OCMapConfig.Value (OCMapConfig.PyInt 42) ->
  OCMapConfig.get eval isfile read "mapconf" "m" = inr (OCMapConfig.PyInt 42) /\
  OCMapConfig.is_dict (OCMapConfig.PyInt 42) = false.
Proof.
  intros Hf Hr He. split; [|reflexivity].
  assert (P : posixpath.join "mapconf"
                (fst (posixpath.splitext (posixpath.basename "m")) ++ ".conf")
              = "mapconf/m.conf") by reflexivity.
  apply get_returns_eval; cbv zeta; rewrite P; [exact Hf|].
  rewrite Hr. exact He.
Qed.

End ConfigFacts.

Lemma get_returns_non_dictionary_witness :
  OCMapConfig.get (fun _ => OCMapConfig.Value (OCMapConfig.PyInt 42))
    (String.eqb "mapconf/m.conf") (fun _ => "42") "mapconf" "m"
  = inr (OCMapConfig.PyInt 42) /\
  OCMapConfig.is_dict (OCMapConfig.PyInt 42) = false.
Proof.
  apply (get_returns_non_dictionary
           (fun _ => OCMapConfig.Value (OCMapConfig.PyInt 42))
           (String.eqb "mapconf/m.conf") (fun _ => "42")); reflexivity.
Defined.

(** ** Tables *)

Lemma mem_In (x : string) (l : list string) : mem x l = true <-> In x l.
Proof.
  unfold mem. rewrite existsb_exists. split.
  - intros [y [Hy E]]. apply String.eqb_eq in E. subst. exact Hy.
  - intros H. exists x. split; [exact H|apply String.eqb_refl].
Qed.

Lemma mem_false (x : string) (l : list string) : mem x l = false <-> ~ In x l.
Proof.
  rewrite <- mem_In. destruct (mem x l); split; intros H; try discriminate; auto.
  exfalso. apply H. reflexivity.
Qed.

Lemma frame_eta {A} (f : frame A) : mkFrame (nrows f) (columns f) = f.
Proof. destruct f; reflexivity. Qed.

Lemma labels_rename {A} (old new : string) (f : frame A) :
  labels (rename old new f)
  = map (fun l => if String.eqb l old then new else l) (labels f).
Proof. unfold labels, rename. simpl. rewrite !map_map. reflexivity. Qed.

Lemma labels_map_label {A} (label : string) (g : list A -> list A) (f : frame A) :
  labels (map_label label g f) = labels f.
Proof. unfold labels, map_label. simpl. rewrite map_map. reflexivity. Qed.

Lemma labels_replace (d : list (string * list (string * string))) (f : frame string) :
  labels (replace d f) = labels f.
Proof. unfold labels, replace. simpl. rewrite map_map. reflexivity. Qed.

Lemma labels_as_cells (f : frame string) : labels (as_cells f) = labels f.
Proof. unfold labels, as_cells. simpl. rewrite map_map. reflexivity. Qed.

Lemma labels_setitem_scalar {A} (label : string) (v : A) (f : frame A) :
  labels (setitem_scalar label v f)
  = if has label f then labels f else (labels f ++ [label])%list.
Proof.
  unfold setitem_scalar. destruct (has label f).
  - apply labels_map_label.
  - unfold labels. simpl. rewrite map_app. reflexivity.
Qed.

(** Renaming a label that is absent changes nothing. *)
Lemma rename_absent {A} (old new : string) (f : frame A) :
  has old f = false -> rename old new f = f.
Proof.
  unfold has. rewrite mem_false. intros H. unfold rename.
  destruct f as [n cs]. unfold labels in H. simpl in *. f_equal.
  rewrite <- (map_id cs) at 2. apply map_ext_in.
  intros [l xs] Hin. simpl.
  destruct (String.eqb_spec l old) as [->|]; [|reflexivity].
  exfalso. apply H. apply in_map_iff. exists (old, xs). auto.
Qed.

Lemma fix_typos_relabels (ocdata : frame string) :
  OCFilterProvider.fix_typos ocdata
  = mkFrame (nrows ocdata) (map (fun c => (canonical (fst c), snd c)) (columns ocdata)).
Proof.
  unfold OCFilterProvider.fix_typos.
  assert (R : forall old new (f : frame string),
             (if has old f then rename old new f else f) = rename old new f).
  { intros old new f. destruct (has old f) eqn:E; [reflexivity|].
    symmetry. apply rename_absent. exact E. }
  rewrite !R. unfold rename. simpl. rewrite !map_map. f_equal.
  apply map_ext. intros [l xs]. simpl. f_equal. unfold canonical.
  destruct (String.eqb_spec l "Intentity") as [->|]; [reflexivity|].
  destruct (String.eqb_spec l "day") as [->|]; [reflexivity|].
  reflexivity.
Qed.

Lemma canonical_idempotent (l : string) : canonical (canonical l) = canonical l.
Proof.
  unfold canonical.
  destruct (String.eqb_spec l "Intentity") as [->|]; [reflexivity|].
  destruct (String.eqb_spec l "day") as [->|]; [reflexivity|].
  destruct (String.eqb_spec l "time") as [->|]; [reflexivity|].
  destruct (String.eqb_spec l "Intentity"); [contradiction|].
  destruct (String.eqb_spec l "day"); [contradiction|].
  destruct (String.eqb_spec l "time"); [contradiction|].
  reflexivity.
Qed.

(** ** fix_typos *)

(** C8. [fix_typos] is idempotent: a second application leaves the table
    of the first as it is, whatever the table. *)
Theorem fix_typos_idempotent (ocdata : frame string) :
  OCFilterProvider.fix_typos (OCFilterProvider.fix_typos ocdata)
  = OCFilterProvider.fix_typos ocdata.
Proof.
  rewrite (fix_typos_relabels (OCFilterProvider.fix_typos ocdata)).
  rewrite fix_typos_relabels. simpl. f_equal. rewrite map_map.
  apply map_ext. intros [l xs]. simpl. rewrite canonical_idempotent. reflexivity.
Qed.

(** ** odour_literals_to_numbers *)

Lemma select_replace (d : list (string * list (string * string))) (label : string)
  (f : frame string) :
  select label (replace d f)
  = map (fun xs => match lookup label d with
                   | Some m => map (substitute m) xs
                   | None => xs
                   end)
        (select label f).
Proof.
  unfold select, replace. simpl.
  induction (columns f) as [|[l xs] cs IH]; [reflexivity|].
  simpl. destruct (String.eqb_spec l label) as [->|]; simpl; [|exact IH].
  rewrite IH. reflexivity.
Qed.

(** C4. An Annoy column holding "Slightly unpleasant", "Moderate
    unpleasant" and the empty text comes out of
    [odour_literals_to_numbers] as "-1", "-3", "0": the nine-level
    mapping gives "-1" and "0" and leaves the second value, which the
    Annoy-only correction then turns into "-3". *)
Theorem annoy_literals_example (ocdata : frame string) :
  select "Annoy" ocdata = [["Slightly unpleasant"; "Moderate unpleasant"; ""]] ->
  select "Annoy" (replace OCFilterProvider.intensity_and_annoy_mapping ocdata)
  = [["-1"; "Moderate unpleasant"; "0"]] /\
  select "Annoy" (OCFilterProvider.odour_literals_to_numbers ocdata)
  = [["-1"; "-3"; "0"]].
Proof.
  intros H. unfold OCFilterProvider.odour_literals_to_numbers.
  rewrite !select_replace, H. split; reflexivity.
Qed.

Lemma annoy_literals_example_witness :
  select "Annoy"
    (replace OCFilterProvider.intensity_and_annoy_mapping
       (mkFrame 3 [("Type", ["Waste"; "Urban"; "Other"]);
                   ("Annoy", ["Slightly unpleasant"; "Moderate unpleasant"; ""])]))
  = [["-1"; "Moderate unpleasant"; "0"]] /\
  select "Annoy"
    (OCFilterProvider.odour_literals_to_numbers
       (mkFrame 3 [("Type", ["Waste"; "Urban"; "Other"]);
                   ("Annoy", ["Slightly unpleasant"; "Moderate unpleasant"; ""])]))
  = [["-1"; "-3"; "0"]].
Proof.
  apply (annoy_literals_example
           (mkFrame 3 [("Type", ["Waste"; "Urban"; "Other"]);
                       ("Annoy", ["Slightly unpleasant"; "Moderate unpleasant"; ""])])).
  reflexivity.
Defined.

(** ** add_analyst_fields *)

Lemma take_while_ext_in {A} (p q : A -> bool) (l : list A) :
  (forall x, In x l -> p x = q x) -> take_while p l = take_while q l.
Proof.
  induction l as [|x r IH]; intros H; simpl; [reflexivity|].
  rewrite <- (H x (or_introl eq_refl)).
  destruct (p x); [|reflexivity].
  f_equal. apply IH. intros y Hy. apply H. right. exact Hy.
Qed.

Lemma forallb_ext_in {A} (p q : A -> bool) (l : list A) :
  (forall x, In x l -> p x = q x) -> forallb p l = forallb q l.
Proof.
  induction l as [|x r IH]; intros H; simpl; [reflexivity|].
  rewrite (H x (or_introl eq_refl)). f_equal.
  apply IH. intros y Hy. apply H. right. exact Hy.
Qed.

Lemma extend_nil (f : frame string) : extend f [] = f.
Proof. unfold extend. simpl. rewrite app_nil_r. apply frame_eta. Qed.

Lemma extend_extend (f : frame string) (a b : list string) :
  extend (extend f a) b = extend f (a ++ b).
Proof. unfold extend. simpl. rewrite map_app, app_assoc. reflexivity. Qed.

Lemma setitem_scalar_absent (label : string) (f : frame string) :
  has label f = false -> setitem_scalar label "" f = extend f [label].
Proof. intros H. unfold setitem_scalar. rewrite H. reflexivity. Qed.

Lemma has_extend (x : string) (f : frame string) (new : list string) :
  has x (extend f new) = has x f || mem x new.
Proof.
  unfold has, labels, extend, mem. simpl.
  rewrite map_app, existsb_app, map_map. simpl. rewrite map_id. reflexivity.
Qed.

(** What the loop of [add_analyst_fields] does on any list of distinct
    labels: it adds the labels that come before the first one present,
    and raises at that one, if there is one. *)
Lemma add_analyst_field_loop (l : list string) :
  NoDup l ->
  forall ocdata,
    for_each l OCFilterProvider.add_analyst_field ocdata
    = (extend ocdata (take_while (fun n => negb (has n ocdata)) l),
       if forallb (fun n => negb (has n ocdata)) l then inr tt
       else inl SchemaConflict).
Proof.
  induction l as [|x r IH]; intros ND ocdata.
  - simpl. rewrite extend_nil. reflexivity.
  - inversion ND as [|? ? Hx NDr]; subst.
    cbn [for_each take_while forallb]. unfold bind.
    unfold OCFilterProvider.add_analyst_field at 1.
    destruct (has x ocdata) eqn:E; simpl.
    + rewrite extend_nil. reflexivity.
    + unfold modify. rewrite (setitem_scalar_absent _ _ E), (IH NDr).
      assert (Same : forall n, In n r ->
                negb (has n (extend ocdata [x])) = negb (has n ocdata)).
      { intros n Hn. rewrite has_extend. simpl.
        destruct (String.eqb_spec n x) as [->|]; [contradiction|].
        rewrite !orb_false_r. reflexivity. }
      rewrite (take_while_ext_in _ _ r Same), (forallb_ext_in _ _ r Same).
      rewrite extend_extend. reflexivity.
Qed.

Lemma analyst_fields_distinct : NoDup OCFilterProvider.analyst_fields.
Proof.
  unfold OCFilterProvider.analyst_fields.
  repeat (constructor; [simpl; intuition discriminate|]). constructor.
Qed.

(** C2, as the code has it. On a table that already has one of the five
    analyst columns, [add_analyst_fields] raises the AssertionError
    (SchemaConflict); the columns that were there stay as they were, in
    place, and the analyst columns listed before the first one present
    have been added, blank, at the end. *)
Theorem add_analyst_fields_conflict (ocdata : frame string) :
  (exists name, In name OCFilterProvider.analyst_fields /\ has name ocdata = true) ->
  OCFilterProvider.add_analyst_fields ocdata
  = (extend ocdata
       (take_while (fun n => negb (has n ocdata)) OCFilterProvider.analyst_fields),
     inl SchemaConflict).
Proof.
  intros [name [Hin Hhas]]. unfold OCFilterProvider.add_analyst_fields.
  rewrite (add_analyst_field_loop _ analyst_fields_distinct).
  destruct (forallb (fun n => negb (has n ocdata)) OCFilterProvider.analyst_fields)
    eqn:E; [|reflexivity].
  rewrite forallb_forall in E. specialize (E name Hin).
  rewrite Hhas in E. discriminate.
Qed.

Lemma add_analyst_fields_conflict_witness :
  OCFilterProvider.add_analyst_fields
    (mkFrame 2 [("Type", ["Waste"; "Urban"]); ("Intensityoverride", ["3"; ""])])
  = (mkFrame 2 [("Type", ["Waste"; "Urban"]); ("Intensityoverride", ["3"; ""]);
                ("Typeoverride", [""; ""]); ("Subtypeoverride", [""; ""])],
     inl SchemaConflict).
Proof.
  apply (add_analyst_fields_conflict
           (mkFrame 2 [("Type", ["Waste"; "Urban"]); ("Intensityoverride", ["3"; ""])])).
  exists "Intensityoverride". split; [simpl; auto|reflexivity].
Defined.

(** C2, as stated, fails: a table whose only column is Analystcomments
    comes out of the failing call with four more columns. *)
Lemma add_analyst_fields_conflict_changes_table :
  OCFilterProvider.add_analyst_fields (mkFrame 1 [("Analystcomments", ["x"])])
  = (mkFrame 1 [("Analystcomments", ["x"]); ("Typeoverride", [""]);
                ("Subtypeoverride", [""]); ("Intensityoverride", [""]);
                ("Annoyoverride", [""])],
     inl SchemaConflict).
Proof. reflexivity. Qed.

(** When none of the five is there, all five are added and the call
    returns. *)
Lemma add_analyst_fields_fresh (ocdata : frame string) :
  forallb (fun n => negb (has n ocdata)) OCFilterProvider.analyst_fields = true ->
  OCFilterProvider.add_analyst_fields ocdata
  = (extend ocdata OCFilterProvider.analyst_fields, inr tt).
Proof.
  intros H. unfold OCFilterProvider.add_analyst_fields.
  rewrite (add_analyst_field_loop _ analyst_fields_distinct), H. f_equal. f_equal.
  clear - H. induction OCFilterProvider.analyst_fields as [|x r IH]; [reflexivity|].
  simpl in *. apply andb_true_iff in H as [Hx Hr]. rewrite Hx, (IH Hr). reflexivity.
Qed.

(** ** The check of the requested names *)

Lemma issubset_false (l1 l2 : list string) :
  (exists name, In name l1 /\ ~ In name l2) -> OCFilterProvider.issubset l1 l2 = false.
Proof.
  intros [name [H1 H2]]. unfold OCFilterProvider.issubset.
  destruct (forallb (fun x => mem x l2) l1) eqn:E; [|reflexivity].
  rewrite forallb_forall in E. specialize (E name H1).
  apply mem_In in E. contradiction.
Qed.

Section RunnerFacts.

Variable to_datetime : string -> option Z.

(** C5, as the code has it. A requested list with a name that is no
    filter makes the constructor raise the ValueError (UnknownFilter)
    before any filter is announced or run, the table untouched; the
    message is a fixed text that lists the five available names, and
    says nothing of the names that were requested. *)
Theorem unknown_filter_rejected (data_frame : frame string) (filter_list : list string) :
  (exists name, In name filter_list /\ ~ In name OCFilterProvider.AVAILABLE) ->
  OCFilterProvider.__init__ to_datetime data_frame filter_list
  = OCFilterProvider.Aborted
      (UnknownFilter OCFilterProvider.unknown_filter_message)
      (as_cells data_frame) [] /\
  length OCFilterProvider.AVAILABLE = 5%nat /\
  Forall (fun name =>
            contains (OCFilterProvider.quoted name)
              OCFilterProvider.unknown_filter_message = true)
         OCFilterProvider.AVAILABLE.
Proof.
  intros H. unfold OCFilterProvider.__init__.
  rewrite (issubset_false _ _ H). split; [reflexivity|]. split; [reflexivity|].
  repeat (constructor; [vm_compute; reflexivity|]). constructor.
Qed.

End RunnerFacts.

Lemma unknown_filter_rejected_witness :
  OCFilterProvider.__init__ (fun _ => None)
    (mkFrame 1 [("Type", ["Waste"])]) ["fix_typos"; "bogus_filter"]
  = OCFilterProvider.Aborted
      (UnknownFilter OCFilterProvider.unknown_filter_message)
      (mkFrame 1 [("Type", [Text "Waste"])]) [] /\
  length OCFilterProvider.AVAILABLE = 5%nat /\
  Forall (fun name =>
            contains (OCFilterProvider.quoted name)
              OCFilterProvider.unknown_filter_message = true)
         OCFilterProvider.AVAILABLE.
Proof.
  apply (unknown_filter_rejected (fun _ => None)
           (mkFrame 1 [("Type", ["Waste"])]) ["fix_typos"; "bogus_filter"]).
  exists "bogus_filter". split; [simpl; auto|].
  simpl. intuition discriminate.
Defined.

(** C5, as stated, fails: for the request [fix_typos, bogus_filter] the
    message of the error does not contain the offending name. *)
Lemma unknown_filter_not_named :
  OCFilterProvider.__init__ (fun _ => None)
    (mkFrame 1 [("Type", ["Waste"])]) ["fix_typos"; "bogus_filter"]
  = OCFilterProvider.Aborted
      (UnknownFilter OCFilterProvider.unknown_filter_message)
      (mkFrame 1 [("Type", [Text "Waste"])]) [] /\
  contains "bogus_filter" OCFilterProvider.unknown_filter_message = false.
Proof. split; vm_compute; reflexivity. Qed.

(** ** What in-place computations keep *)

Lemma stable_ret {S A} (P : S -> Prop) (a : A) : stable P (@ret S A a).
Proof. intros s H. exact H. Qed.

Lemma stable_raise {S A} (P : S -> Prop) (e : exn) : stable P (@raise S A e).
Proof. intros s H. exact H. Qed.

Lemma stable_modify {S} (P : S -> Prop) (g : S -> S) :
  (forall s, P s -> P (g s)) -> stable P (modify g).
Proof. intros H s Hs. apply H. exact Hs. Qed.

Lemma stable_bind {S A B} (P : S -> Prop) (m : M S A) (k : A -> M S B) :
  stable P m -> (forall a, stable P (k a)) -> stable P (bind m k).
Proof.
  intros Hm Hk s Hs. unfold bind. specialize (Hm s Hs).
  destruct (m s) as [s' [e|a]]; simpl in *; [exact Hm|].
  apply Hk. exact Hm.
Qed.

Lemma stable_when {S} (P : S -> Prop) (b : bool) (m : M S unit) :
  stable P m -> stable P (when b m).
Proof. intros H. destruct b; [exact H|apply stable_ret]. Qed.

Lemma stable_for_each {S A} (P : S -> Prop) (body : A -> M S unit) (l : list A) :
  (forall x, In x l -> stable P (body x)) -> stable P (for_each l body).
Proof.
  induction l as [|x r IH]; intros H; simpl; [apply stable_ret|].
  apply stable_bind; [apply H; left; reflexivity|].
  intros _. apply IH. intros y Hy. apply H. right. exact Hy.
Qed.

(** A loop that returned ran its first body, which returned, and then
    the rest of the loop. *)
Lemma for_each_cons_returns {S A} (body : A -> M S unit) (x : A) (r : list A)
  (s s' : S) :
  for_each (x :: r) body s = (s', inr tt) ->
  exists s1, body x s = (s1, inr tt) /\ for_each r body s1 = (s', inr tt).
Proof.
  simpl. unfold bind. destruct (body x s) as [s1 [e|[]]]; [discriminate|].
  intros H. exists s1. split; [reflexivity|exact H].
Qed.

Lemma traverse_length {A B} (g : A -> exn + B) (l : list A) (ys : list B) :
  traverse g l = inr ys -> length ys = length l.
Proof.
  revert ys. induction l as [|x r IH]; intros ys; simpl.
  - intros H. inversion H. reflexivity.
  - destruct (g x); [discriminate|]. destruct (traverse g r); [discriminate|].
    intros H. inversion H. simpl. f_equal. apply IH. reflexivity.
Qed.


(** ** Columns by label *)

Lemma select_map_label {A} (c label : string) (g : list A -> list A) (f : frame A) :
  select c (map_label label g f)
  = if String.eqb c label then map g (select c f) else select c f.
Proof.
  unfold select, map_label. simpl.
  induction (columns f) as [|[l xs] cs IH]; simpl.
  - destruct (String.eqb c label); reflexivity.
  - destruct (String.eqb_spec l c) as [->|N]; simpl.
    + rewrite IH. destruct (String.eqb c label); reflexivity.
    + exact IH.
Qed.

Lemma select_as_cells (c : string) (f : frame string) :
  select c (as_cells f) = map (map Text) (select c f).
Proof.
  unfold select, as_cells. simpl.
  induction (columns f) as [|[l xs] cs IH]; [reflexivity|]. simpl.
  destruct (String.eqb l c); simpl; [rewrite IH; reflexivity|exact IH].
Qed.

Lemma select_count {A} (c : string) (f : frame A) :
  length (select c f) = count_occ string_dec (labels f) c.
Proof.
  unfold select, labels.
  induction (columns f) as [|[l xs] cs IH]; [reflexivity|]. simpl.
  destruct (string_dec l c) as [E|E].
  - subst. rewrite String.eqb_refl. simpl. f_equal. exact IH.
  - apply String.eqb_neq in E. rewrite E. exact IH.
Qed.

Lemma select_absent {A} (c : string) (f : frame A) :
  has c f = false -> select c f = [].
Proof.
  intros H. apply length_zero_iff_nil. rewrite select_count.
  apply count_occ_not_In. apply mem_false. exact H.
Qed.

Lemma select_extend (c : string) (f : frame string) (new : list string) :
  select c (extend f new)
  = (select c f
     ++ map (fun _ => repeat "" (nrows f)) (filter (fun l => String.eqb l c) new))%list.
Proof.
  unfold select, extend. simpl. rewrite filter_app, map_app. f_equal.
  induction new as [|x r IH]; [reflexivity|]. simpl.
  destruct (String.eqb x c); simpl; [rewrite IH; reflexivity|exact IH].
Qed.

Lemma select_fix_typos_user (ocdata : frame string) :
  has "User" (OCFilterProvider.fix_typos ocdata) = has "User" ocdata.
Proof.
  rewrite fix_typos_relabels. unfold has, labels, mem. simpl. rewrite !map_map. simpl.
  induction (columns ocdata) as [|[l xs] cs IH]; [reflexivity|]. simpl.
  rewrite IH. f_equal. unfold canonical.
  destruct (String.eqb_spec l "Intentity") as [->|]; [reflexivity|].
  destruct (String.eqb_spec l "day") as [->|]; [reflexivity|].
  destruct (String.eqb_spec l "time") as [->|]; reflexivity.
Qed.

(** ** type_casting *)

Section CastingFacts.

Variable to_datetime : string -> option Z.

Lemma stable_cast_series (P : frame cell -> Prop) (column : string)
  (g : list cell -> exn + list cell) :
  (forall s xs ys, P s -> select column s = [xs] -> g xs = inr ys ->
                   P (map_label column (fun _ => ys) s)) ->
  stable P (OCFilterProvider.cast_series column g).
Proof.
  intros H s Hs. unfold OCFilterProvider.cast_series.
  destruct (select column s) as [|xs [|zs rest]] eqn:E; simpl; try exact Hs.
  destruct (g xs) as [e|ys] eqn:G; simpl; [exact Hs|].
  apply (H s xs ys Hs E G).
Qed.

(** A property that no change of the cells of [column] can break is
    kept by the loop body for [column]. *)
Lemma stable_cast_column (P : frame cell -> Prop) (column : string) :
  (forall g s, P s -> P (map_label column g s)) ->
  stable P (OCFilterProvider.cast_column to_datetime column).
Proof.
  intros H. unfold OCFilterProvider.cast_column.
  repeat first
    [ apply stable_bind; [|intros _]
    | apply stable_when
    | apply stable_modify; intros s Hs; apply H; exact Hs
    | apply stable_cast_series; intros s xs ys Hs _ _; apply H; exact Hs ].
Qed.


(** The labels, in order, and the number of rows are the same after
    [type_casting], whether it returns or raises. *)
Lemma type_casting_keeps_labels (ocdata : frame cell) :
  labels (fst (OCFilterProvider.type_casting to_datetime ocdata)) = labels ocdata /\
  nrows (fst (OCFilterProvider.type_casting to_datetime ocdata)) = nrows ocdata.
Proof.
  unfold OCFilterProvider.type_casting.
  apply (stable_for_each
           (fun s => labels s = labels ocdata /\ nrows s = nrows ocdata)).
  - intros x _. apply stable_cast_column. intros g s [Hl Hn].
    rewrite labels_map_label. auto.
  - auto.
Qed.

(** The loop body for one label leaves the columns of every other label
    as they are. *)
Lemma cast_column_other (c column : string) (s : frame cell) :
  c <> column ->
  select c (fst (OCFilterProvider.cast_column to_datetime column s)) = select c s.
Proof.
  intros N.
  apply (stable_cast_column (fun t => select c t = select c s)); [|reflexivity].
  intros g t Ht. rewrite select_map_label.
  apply String.eqb_neq in N. rewrite N. exact Ht.
Qed.

Lemma for_each_cast_column_other (c : string) (rest : list string) (s : frame cell) :
  ~ In c rest ->
  select c (fst (for_each rest (OCFilterProvider.cast_column to_datetime) s))
  = select c s.
Proof.
  intros N.
  apply (stable_for_each (fun t => select c t = select c s)); [|reflexivity].
  intros x Hx t Ht. rewrite cast_column_other; [exact Ht|].
  intros ->. contradiction.
Qed.

(** A label that comes once in the loop: when the loop returns, the
    columns of that label are what the body for that label made of
    them, in a table where they were still as at the start. *)
Lemma for_each_cast_column_once (c : string) (rest : list string) :
  forall s s' : frame cell,
    count_occ string_dec rest c = 1%nat ->
    for_each rest (OCFilterProvider.cast_column to_datetime) s = (s', inr tt) ->
    exists s1 s2,
      select c s1 = select c s /\
      OCFilterProvider.cast_column to_datetime c s1 = (s2, inr tt) /\
      select c s' = select c s2.
Proof.
  induction rest as [|x r IH]; intros s s' Hc Hrun; [discriminate|].
  apply for_each_cons_returns in Hrun as [s1 [Hx Hr]].
  destruct (string_dec x c) as [->|N].
  - rewrite count_occ_cons_eq in Hc by reflexivity.
    assert (Hnot : ~ In c r) by (apply count_occ_not_In with (eq_dec := string_dec); lia).
    exists s, s1. split; [reflexivity|]. split; [exact Hx|].
    pose proof (for_each_cast_column_other c r s1 Hnot) as K.
    rewrite Hr in K. exact K.
  - rewrite count_occ_cons_neq in Hc by exact N.
    destruct (IH s1 s' Hc Hr) as [t1 [t2 [H1 [H2 H3]]]].
    exists t1, t2. split; [|auto].
    rewrite H1. pose proof (cast_column_other c x s (not_eq_sym N)) as K.
    rewrite Hx in K. exact K.
Qed.

Lemma type_casting_once (c : string) (xs : list cell) (s s' : frame cell) :
  select c s = [xs] ->
  OCFilterProvider.type_casting to_datetime s = (s', inr tt) ->
  exists s1 s2,
    select c s1 = [xs] /\
    OCFilterProvider.cast_column to_datetime c s1 = (s2, inr tt) /\
    select c s' = select c s2.
Proof.
  intros Hsel Hrun. unfold OCFilterProvider.type_casting in Hrun.
  assert (Hc : count_occ string_dec (labels s) c = 1%nat).
  { rewrite <- select_count, Hsel. reflexivity. }
  destruct (for_each_cast_column_once c (labels s) s s' Hc Hrun) as [s1 [s2 [H1 H2]]].
  exists s1, s2. rewrite H1. auto.
Qed.

End CastingFacts.

(** ** The pipeline *)

Section PipelineFacts.

Variable to_datetime : string -> option Z.


(** For User the body only tags the column as category. *)
Lemma cast_column_user (s : frame cell) :
  OCFilterProvider.cast_column to_datetime "User" s
  = (map_label "User" (map OCFilterProvider.astype_category) s, inr tt).
Proof. reflexivity. Qed.


End PipelineFacts.

Lemma nrows_setitem_scalar {A} (label : string) (v : A) (f : frame A) :
  nrows (setitem_scalar label v f) = nrows f.
Proof. unfold setitem_scalar. destruct (has label f); reflexivity. Qed.

Lemma nrows_fix_typos (ocdata : frame string) :
  nrows (OCFilterProvider.fix_typos ocdata) = nrows ocdata.
Proof. rewrite fix_typos_relabels. reflexivity. Qed.

Lemma nrows_fix_userids (ocdata : frame string) :
  nrows (OCFilterProvider.fix_userids ocdata) = nrows ocdata.
Proof.
  unfold OCFilterProvider.fix_userids.
  destruct (negb (has "User" ocdata)); [apply nrows_setitem_scalar|reflexivity].
Qed.

Lemma nrows_odour_literals_to_numbers (ocdata : frame string) :
  nrows (OCFilterProvider.odour_literals_to_numbers ocdata) = nrows ocdata.
Proof. reflexivity. Qed.


(** ** Distinct labels *)

Lemma labels_fix_typos (ocdata : frame string) :
  labels (OCFilterProvider.fix_typos ocdata) = map canonical (labels ocdata).
Proof. rewrite fix_typos_relabels. unfold labels. simpl. rewrite !map_map. reflexivity. Qed.

Lemma labels_extend (f : frame string) (new : list string) :
  labels (extend f new) = (labels f ++ new)%list.
Proof.
  unfold labels, extend. simpl. rewrite map_app, map_map. simpl. rewrite map_id.
  reflexivity.
Qed.

Lemma take_while_In {A} (p : A -> bool) (l : list A) (x : A) :
  In x (take_while p l) -> In x l /\ p x = true.
Proof.
  induction l as [|a r IH]; simpl; [contradiction|].
  destruct (p a) eqn:E; [|contradiction].
  intros [->|H]; [auto|]. destruct (IH H). auto.
Qed.

Lemma take_while_NoDup {A} (p : A -> bool) (l : list A) :
  NoDup l -> NoDup (take_while p l).
Proof.
  induction 1 as [|a r Ha ND IH]; simpl; [constructor|].
  destruct (p a); constructor; [|exact IH].
  intros H. apply take_while_In in H as [H _]. contradiction.
Qed.

(** Where no mistyped label stands next to its correction, relabelling
    keeps distinct labels distinct. *)
Lemma canonical_injective_on (ocdata : frame string) :
  clash_free ocdata = true ->
  ForallPairs (fun x y => canonical x = canonical y -> x = y) (labels ocdata).
Proof.
  unfold clash_free, typos, has. simpl. rewrite !andb_true_iff, !negb_true_iff.
  rewrite !andb_false_iff, !mem_false. intros [C1 [C2 [C3 _]]].
  intros x y Hx Hy. unfold canonical.
  destruct (String.eqb_spec x "Intentity"); destruct (String.eqb_spec y "Intentity");
    destruct (String.eqb_spec x "day"); destruct (String.eqb_spec y "day");
    destruct (String.eqb_spec x "time"); destruct (String.eqb_spec y "time");
    intros E; subst; try congruence; try discriminate; exfalso; tauto.
Qed.

Section LabelFacts.

Variable to_datetime : string -> option Z.

(** C7, as the code has it. On a table with distinct labels, every
    filter leaves a table with distinct labels, whether it returns or
    raises, provided that for [fix_typos] the table does not hold a
    mistyped label together with the label it is renamed to. *)
Theorem filters_keep_labels_distinct (data_filter : string) (ocdata : frame string) :
  NoDup (labels ocdata) ->
  (data_filter = "fix_typos" -> clash_free ocdata = true) ->
  match OCFilterProvider.call_filter to_datetime data_filter (OCFilterProvider.Table ocdata)
  with
  | OCFilterProvider.Returns v => NoDup (labels (OCFilterProvider.object_of v))
  | OCFilterProvider.Raises _ object => NoDup (labels object)
  end.
Proof.
  intros ND Clash. unfold OCFilterProvider.call_filter.
  destruct (negb (mem data_filter OCFilterProvider.AVAILABLE)).
  { simpl. rewrite labels_as_cells. exact ND. }
  destruct (String.eqb_spec data_filter "fix_typos") as [E|_].
  { simpl. rewrite labels_as_cells, labels_fix_typos.
    apply NoDup_map_NoDup_ForallPairs; [|exact ND].
    apply canonical_injective_on. auto. }
  destruct (String.eqb_spec data_filter "fix_userids") as [_|_].
  { simpl. rewrite labels_as_cells. unfold OCFilterProvider.fix_userids.
    destruct (has "User" ocdata) eqn:U; simpl; [exact ND|].
    rewrite labels_setitem_scalar, U.
    apply NoDup_app; [exact ND|repeat constructor; simpl; tauto|].
    intros a Ha [<-|[]]. apply mem_false in U. contradiction. }
  destruct (String.eqb_spec data_filter "odour_literals_to_numbers") as [_|_].
  { simpl. rewrite labels_as_cells. unfold OCFilterProvider.odour_literals_to_numbers.
    rewrite !labels_replace. exact ND. }
  destruct (String.eqb_spec data_filter "add_analyst_fields") as [_|_].
  { unfold OCFilterProvider.add_analyst_fields.
    rewrite (add_analyst_field_loop _ analyst_fields_distinct).
    assert (K : NoDup (labels (extend ocdata
                  (take_while (fun n => negb (has n ocdata))
                     OCFilterProvider.analyst_fields)))).
    { rewrite labels_extend.
      apply NoDup_app;
        [exact ND|apply take_while_NoDup; exact analyst_fields_distinct|].
      intros a Ha Hb. apply take_while_In in Hb as [_ Hb].
      apply negb_true_iff in Hb. apply mem_false in Hb. contradiction. }
    destruct (forallb _ _); simpl; rewrite labels_as_cells; exact K. }
  pose proof (type_casting_keeps_labels to_datetime (as_cells ocdata)) as [Hl _].
  destruct (OCFilterProvider.type_casting to_datetime (as_cells ocdata)) as [t [e|u]];
    simpl in *; rewrite Hl, labels_as_cells; exact ND.
Qed.

End LabelFacts.

Lemma filters_keep_labels_distinct_witness :
  NoDup
    (labels
       (OCFilterProvider.object_of
          (OCFilterProvider.Table
             (mkFrame 1 [("Intensity", ["Weak"]); ("Day", ["2020-01-01"])])))).
Proof.
  apply (filters_keep_labels_distinct (fun _ => None) "fix_typos"
           (mkFrame 1 [("Intentity", ["Weak"]); ("day", ["2020-01-01"])])).
  - repeat constructor; simpl; intuition discriminate.
  - intros _. reflexivity.
Defined.

(** C7, as stated, fails: with both Intentity and Intensity in a table
    of distinct labels, [fix_typos] returns a table with two columns
    labelled Intensity. *)
Lemma fix_typos_repeats_a_label :
  NoDup (labels (mkFrame 1 [("Intentity", ["Weak"]); ("Intensity", ["Strong"])])) /\
  OCFilterProvider.fix_typos
    (mkFrame 1 [("Intentity", ["Weak"]); ("Intensity", ["Strong"])])
  = mkFrame 1 [("Intensity", ["Weak"]); ("Intensity", ["Strong"])] /\
  ~ NoDup
      (labels
         (OCFilterProvider.fix_typos
            (mkFrame 1 [("Intentity", ["Weak"]); ("Intensity", ["Strong"])]))).
Proof.
  split; [repeat constructor; simpl; intuition discriminate|].
  split; [reflexivity|].
  simpl. intros H. inversion H as [|? ? Hin _]. apply Hin. left. reflexivity.
Qed.

(** ** Row counts *)

Lemma well_formed_map_label {A} (label : string) (g : list A -> list A) (f : frame A) :
  well_formed f ->
  (forall xs, In (label, xs) (columns f) -> length (g xs) = nrows f) ->
  well_formed (map_label label g f).
Proof.
  unfold well_formed, map_label. simpl. intros W H.
  rewrite Forall_forall in *. intros [l ys] Hin.
  apply in_map_iff in Hin as [[l' xs] [E Hin]]. simpl in E.
  injection E as El Ey. subst l ys. simpl.
  destruct (String.eqb_spec l' label) as [->|]; [apply H; exact Hin|].
  apply (W _ Hin).
Qed.

Lemma select_In {A} (label : string) (f : frame A) (xs : list A) :
  In (label, xs) (columns f) -> In xs (select label f).
Proof.
  intros H. unfold select. apply in_map_iff. exists (label, xs). split; [reflexivity|].
  apply filter_In. split; [exact H|apply String.eqb_refl].
Qed.

Lemma In_select {A} (label : string) (f : frame A) (xs : list A) :
  In xs (select label f) -> In (label, xs) (columns f).
Proof.
  unfold select. intros H. apply in_map_iff in H as [[l ys] [E H]].
  apply filter_In in H as [H L]. simpl in *. apply String.eqb_eq in L. subst. exact H.
Qed.

Lemma well_formed_as_cells (f : frame string) :
  well_formed f -> well_formed (as_cells f).
Proof.
  unfold well_formed, as_cells. simpl. rewrite !Forall_forall. intros W [l ys] Hin.
  apply in_map_iff in Hin as [[l' xs] [E Hin]]. inversion E; subst. simpl.
  rewrite length_map. apply (W _ Hin).
Qed.

Lemma well_formed_extend (f : frame string) (new : list string) :
  well_formed f -> well_formed (extend f new).
Proof.
  unfold well_formed, extend. simpl. intros W. apply Forall_app. split; [exact W|].
  rewrite Forall_forall. intros [l ys] Hin.
  apply in_map_iff in Hin as [x [E _]]. inversion E; subst. simpl.
  apply repeat_length.
Qed.

Lemma well_formed_fix_typos (ocdata : frame string) :
  well_formed ocdata -> well_formed (OCFilterProvider.fix_typos ocdata).
Proof.
  rewrite fix_typos_relabels. unfold well_formed. simpl. rewrite !Forall_forall.
  intros W [l ys] Hin. apply in_map_iff in Hin as [[l' xs] [E Hin]].
  inversion E; subst. apply (W _ Hin).
Qed.

Lemma well_formed_fix_userids (ocdata : frame string) :
  well_formed ocdata -> well_formed (OCFilterProvider.fix_userids ocdata).
Proof.
  intros W. unfold OCFilterProvider.fix_userids.
  destruct (has "User" ocdata) eqn:U; simpl; [exact W|].
  rewrite (setitem_scalar_absent _ _ U). apply well_formed_extend. exact W.
Qed.

Lemma well_formed_replace (d : list (string * list (string * string)))
  (f : frame string) :
  well_formed f -> well_formed (replace d f).
Proof.
  unfold well_formed, replace. simpl. rewrite !Forall_forall.
  intros W [l ys] Hin. apply in_map_iff in Hin as [[l' xs] [E Hin]].
  simpl in E. injection E as El Ey. subst l ys. simpl.
  specialize (W _ Hin). simpl in W.
  destruct (lookup l' d); [rewrite length_map|]; exact W.
Qed.

Lemma on_strs_length {B} (g : string -> exn + B) (wrap : B -> cell)
  (xs ys : list cell) :
  OCFilterProvider.on_strs g wrap xs = inr ys -> length ys = length xs.
Proof.
  unfold OCFilterProvider.on_strs.
  destruct (traverse OCFilterProvider.str_value xs) as [e|ss] eqn:T1; [discriminate|].
  destruct (traverse g ss) as [e|zs] eqn:T2; [discriminate|].
  intros H. inversion H. rewrite length_map.
  rewrite (traverse_length _ _ _ T2). apply (traverse_length _ _ _ T1).
Qed.

Section RowFacts.

Variable to_datetime : string -> option Z.

Lemma type_casting_keeps_rows (ocdata : frame cell) :
  well_formed ocdata ->
  well_formed (fst (OCFilterProvider.type_casting to_datetime ocdata)).
Proof.
  intros W. unfold OCFilterProvider.type_casting.
  apply (stable_for_each (fun s : frame cell => well_formed s)); [|exact W].
  intros column _. unfold OCFilterProvider.cast_column.
  assert (Series : forall {B} (g : string -> exn + B) (wrap : B -> cell),
             stable (fun s : frame cell => well_formed s)
               (OCFilterProvider.cast_series column (OCFilterProvider.on_strs g wrap))).
  { intros B g wrap. apply stable_cast_series. intros s xs ys Ws Hsel Hg.
    apply well_formed_map_label; [exact Ws|]. intros zs _.
    rewrite (on_strs_length _ _ _ _ Hg).
    assert (Hin : In (column, xs) (columns s)).
    { apply In_select. rewrite Hsel. left. reflexivity. }
    unfold well_formed in Ws. rewrite Forall_forall in Ws. apply (Ws _ Hin). }
  repeat first
    [ apply stable_bind; [|intros _]
    | apply stable_when
    | apply Series ].
  apply stable_modify. intros s Ws. apply well_formed_map_label; [exact Ws|].
  intros xs Hin. rewrite length_map.
  unfold well_formed in Ws. rewrite Forall_forall in Ws. apply (Ws _ Hin).
Qed.

(** X15. The part of C1 that holds: whatever a filter does, returning
    or raising, the table it leaves has the rows it had, one cell per
    row in every column. *)
Lemma filters_keep_row_count (data_filter : string) (ocdata : frame string) :
  well_formed ocdata ->
  match OCFilterProvider.call_filter to_datetime data_filter (OCFilterProvider.Table ocdata)
  with
  | OCFilterProvider.Returns v =>
      nrows (OCFilterProvider.object_of v) = nrows ocdata /\
      well_formed (OCFilterProvider.object_of v)
  | OCFilterProvider.Raises _ object =>
      nrows object = nrows ocdata /\ well_formed object
  end.
Proof.
  intros W. unfold OCFilterProvider.call_filter.
  destruct (negb (mem data_filter OCFilterProvider.AVAILABLE)).
  { simpl. split; [reflexivity|apply well_formed_as_cells; exact W]. }
  destruct (String.eqb data_filter "fix_typos").
  { simpl. split; [apply nrows_fix_typos|].
    apply well_formed_as_cells, well_formed_fix_typos, W. }
  destruct (String.eqb data_filter "fix_userids").
  { simpl. split; [apply nrows_fix_userids|].
    apply well_formed_as_cells, well_formed_fix_userids, W. }
  destruct (String.eqb data_filter "odour_literals_to_numbers").
  { simpl. split; [reflexivity|].
    apply well_formed_as_cells. unfold OCFilterProvider.odour_literals_to_numbers.
    apply well_formed_replace, well_formed_replace, W. }
  destruct (String.eqb data_filter "add_analyst_fields").
  { unfold OCFilterProvider.add_analyst_fields.
    rewrite (add_analyst_field_loop _ analyst_fields_distinct).
    destruct (forallb _ _); simpl;
      (split; [reflexivity|apply well_formed_as_cells, well_formed_extend, W]). }
  pose proof (type_casting_keeps_labels to_datetime (as_cells ocdata)) as [_ Hn].
  pose proof (type_casting_keeps_rows (as_cells ocdata) (well_formed_as_cells _ W)) as Hw.
  destruct (OCFilterProvider.type_casting to_datetime (as_cells ocdata)) as [t [e|u]];
    simpl in *; auto.
Qed.

(** C1. [type_casting] has no [return]: when it runs to its end its
    value is [None], not the table. So for the one-row table with a
    blank User column the call gives [None], and a run that has another
    filter after [type_casting] hands that filter [None] and ends in a
    TypeError. *)
Theorem type_casting_returns_none :
  (forall ocdata v,
     OCFilterProvider.call_filter to_datetime "type_casting" (OCFilterProvider.Table ocdata)
     = OCFilterProvider.Returns v ->
     exists object, v = OCFilterProvider.NoneAfter object) /\
  OCFilterProvider.call_filter to_datetime "type_casting"
    (OCFilterProvider.Table (mkFrame 1 [("User", [""])]))
  = OCFilterProvider.Returns
      (OCFilterProvider.NoneAfter (mkFrame 1 [("User", [Label ""])])) /\
  OCFilterProvider.__run__ to_datetime ["type_casting"; "fix_typos"]
    (OCFilterProvider.Table (mkFrame 1 [("User", [""])])) []
  = OCFilterProvider.Aborted TypeError (mkFrame 1 [("User", [Label ""])])
      ["type_casting"; "fix_typos"].
Proof.
  split; [|split; reflexivity].
  intros ocdata v.
  change (OCFilterProvider.call_filter to_datetime "type_casting"
            (OCFilterProvider.Table ocdata))
    with (match OCFilterProvider.type_casting to_datetime (as_cells ocdata) with
          | (ocdata, inr _) => OCFilterProvider.Returns (OCFilterProvider.NoneAfter ocdata)
          | (ocdata, inl e) => OCFilterProvider.Raises e ocdata
          end).
  destruct (OCFilterProvider.type_casting to_datetime (as_cells ocdata)) as [t [e|u]];
    [discriminate|].
  intros H. inversion H. exists t. reflexivity.
Qed.

End RowFacts.

(** ** The exceptions of type_casting *)

Lemma hoare_ret {S A} (P : S -> Prop) (E : exn -> Prop) (a : A) :
  hoare P (ret a) P E.
Proof. intros s H. exact H. Qed.

Lemma hoare_weaken {S A} (P Q Q' : S -> Prop) (E : exn -> Prop) (m : M S A) :
  hoare P m Q E -> (forall s, Q s -> Q' s) -> hoare P m Q' E.
Proof.
  intros H W s Hs. specialize (H s Hs). destruct (m s) as [s' [e|a]]; auto.
Qed.

Lemma hoare_bind {S A B} (P Q R : S -> Prop) (E : exn -> Prop) (m : M S A)
  (k : A -> M S B) :
  hoare P m Q E -> (forall a, hoare Q (k a) R E) -> hoare P (bind m k) R E.
Proof.
  intros Hm Hk s Hs. unfold bind. specialize (Hm s Hs).
  destruct (m s) as [s' [e|a]]; [exact Hm|]. apply (Hk a s' Hm).
Qed.

Lemma hoare_modify {S} (P Q : S -> Prop) (E : exn -> Prop) (g : S -> S) :
  (forall s, P s -> Q (g s)) -> hoare P (modify g) Q E.
Proof. intros H s Hs. apply H. exact Hs. Qed.

Lemma traverse_str_value (xs : list cell) :
  Forall textual xs -> exists ss, traverse OCFilterProvider.str_value xs = inr ss.
Proof.
  induction 1 as [|c r Hc _ [ss IH]]; [exists []; reflexivity|].
  simpl. rewrite IH. destruct c; simpl in Hc; try contradiction; eexists; reflexivity.
Qed.

Lemma traverse_raises {A B} (g : A -> exn + B) (l : list A) (e : exn) :
  traverse g l = inl e -> exists x, In x l /\ g x = inl e.
Proof.
  induction l as [|a r IH]; simpl; [discriminate|].
  destruct (g a) as [e'|b] eqn:G.
  - intros H. inversion H; subst. exists a. auto.
  - destruct (traverse g r) as [e'|bs]; [|discriminate].
    intros H. inversion H; subst. destruct (IH eq_refl) as [x [Hx Gx]].
    exists x. auto.
Qed.

Lemma In_map_label {A} (label l : string) (g : list A -> list A) (f : frame A)
  (zs : list A) :
  In (l, zs) (columns (map_label label g f)) ->
  exists xs, In (l, xs) (columns f) /\
             zs = if String.eqb l label then g xs else xs.
Proof.
  unfold map_label. simpl. intros H.
  apply in_map_iff in H as [[l' xs] [E H]]. simpl in E.
  injection E as El Ez. subst l zs. exists xs. auto.
Qed.

Section ExceptionFacts.

Variable to_datetime : string -> option Z.

(** The labels of the table at the start of the loop. *)
Variable L : list string.

Lemma loop_invariant_tail (x : string) (r : list string) (s : frame cell) :
  loop_invariant L (x :: r) s -> loop_invariant L r s.
Proof.
  intros [Hl Ht]. split; [exact Hl|].
  intros l xs Hin Hr. apply (Ht l xs Hin). right. exact Hr.
Qed.

(** One cast of the column [x], the label the loop is at. *)
Lemma cast_series_raises {B} (h : string -> exn + B) (wrap : B -> cell)
  (x : string) (pre r : list string) :
  L = (pre ++ x :: r)%list ->
  (forall t e, h t = inl e -> casting_error e) ->
  hoare (loop_invariant L (x :: r))
    (OCFilterProvider.cast_series x (OCFilterProvider.on_strs h wrap))
    (fun s => loop_invariant L r s /\
              ((forall b, textual (wrap b)) -> loop_invariant L (x :: r) s))
    casting_error.
Proof.
  intros HL Hh s [Hl Ht]. unfold OCFilterProvider.cast_series.
  destruct (select x s) as [|xs [|zs rest]] eqn:Sel.
  - exfalso. assert (C : count_occ string_dec (labels s) x = 0%nat)
      by (rewrite <- select_count, Sel; reflexivity).
    apply count_occ_not_In in C. apply C. rewrite Hl, HL.
    apply in_or_app. right. left. reflexivity.
  - assert (Hin : In (x, xs) (columns s))
      by (apply In_select; rewrite Sel; left; reflexivity).
    assert (Hx : ~ In x r).
    { assert (C : count_occ string_dec (labels s) x = 1%nat)
        by (rewrite <- select_count, Sel; reflexivity).
      rewrite Hl, HL, count_occ_app, count_occ_cons_eq in C by reflexivity.
      apply count_occ_not_In with (eq_dec := string_dec). lia. }
    destruct (traverse_str_value xs) as [ss Hss].
    { apply (Ht x xs Hin). left. reflexivity. }
    unfold OCFilterProvider.on_strs. rewrite Hss.
    destruct (traverse h ss) as [e|ys] eqn:T; simpl.
    + apply traverse_raises in T as [t [_ Gt]]. apply (Hh t e Gt).
    + split; [split|intros W; split]; try (rewrite labels_map_label; exact Hl).
      * intros l cs Hc Hr. apply In_map_label in Hc as [cs0 [Hc ->]].
        destruct (String.eqb_spec l x) as [->|]; [contradiction|].
        apply (Ht l cs0 Hc). right. exact Hr.
      * intros l cs Hc Hr. apply In_map_label in Hc as [cs0 [Hc ->]].
        destruct (String.eqb_spec l x) as [->|].
        -- apply Forall_forall. intros c Hc'. apply in_map_iff in Hc' as [b [<- _]].
           apply W.
        -- apply (Ht l cs0 Hc Hr).
  - simpl. unfold casting_error. simpl. tauto.
Qed.

Lemma parse_date_raises (t : string) (e : exn) :
  OCFilterProvider.parse_date to_datetime t = inl e -> casting_error e.
Proof.
  unfold OCFilterProvider.parse_date. destruct (to_datetime t); [discriminate|].
  intros H. inversion H. unfold casting_error. simpl. tauto.
Qed.

Lemma to_minutes_raises (t : string) (e : exn) :
  to_minutes t = inl e -> casting_error e.
Proof.
  unfold to_minutes. destruct (to_timedelta t); [discriminate|].
  intros H. inversion H. unfold casting_error. simpl. tauto.
Qed.

Lemma astype_int_raises (t : string) (e : exn) :
  astype_int t = inl e -> casting_error e.
Proof.
  unfold astype_int. destruct (py_int t).
  - destruct (_ && _); [discriminate|]. intros H. inversion H.
    unfold casting_error. simpl. tauto.
  - intros H. inversion H. unfold casting_error. simpl. tauto.
Qed.

(** The category tag keeps text textual. *)
Lemma tag_keeps_invariant (x : string) (rest : list string) (b : bool) :
  hoare (loop_invariant L rest)
    (when b (modify (map_label x (map OCFilterProvider.astype_category))))
    (loop_invariant L rest) casting_error.
Proof.
  destruct b; [|apply hoare_ret].
  apply hoare_modify. intros s [Hl Ht]. split; [rewrite labels_map_label; exact Hl|].
  intros l cs Hc Hr. apply In_map_label in Hc as [cs0 [Hc ->]].
  specialize (Ht l cs0 Hc Hr).
  destruct (String.eqb l x); [|exact Ht].
  apply Forall_forall. intros c Hc'. apply in_map_iff in Hc' as [c0 [<- H0]].
  rewrite Forall_forall in Ht. specialize (Ht c0 H0).
  destruct c0; simpl in *; auto.
Qed.

Ltac one_cast HL :=
  eapply hoare_weaken;
  [ eapply (cast_series_raises _ _ _ _ _ HL);
    first [ apply parse_date_raises | apply to_minutes_raises
          | apply astype_int_raises | discriminate ]
  | ].

(** The loop body, at the label [x] with [r] still to come. *)
Lemma cast_column_raises (x : string) (pre r : list string) :
  L = (pre ++ x :: r)%list ->
  hoare (loop_invariant L (x :: r)) (OCFilterProvider.cast_column to_datetime x)
    (loop_invariant L r) casting_error.
Proof.
  intros HL. unfold OCFilterProvider.cast_column.
  eapply hoare_bind; [apply tag_keeps_invariant|intros _].
  destruct (mem x OCFilterProvider.datetime_types) eqn:D.
  { apply mem_In in D. simpl in D. destruct D as [<-|[]].
    change (mem "Day" OCFilterProvider.timedelta_types) with false.
    change (mem "Day" OCFilterProvider.int_types) with false.
    unfold when.
    eapply hoare_bind; [one_cast HL; intros s [H _]; exact H|intros _].
    eapply hoare_bind; [apply hoare_ret|intros _]. apply hoare_ret. }
  unfold when at 1. eapply hoare_bind; [apply hoare_ret|intros _].
  destruct (mem x OCFilterProvider.timedelta_types) eqn:T.
  { assert (I : mem x OCFilterProvider.int_types = false).
    { apply mem_In in T. simpl in T. destruct T as [<-|[<-|[]]]; reflexivity. }
    rewrite I. unfold when.
    eapply hoare_bind; [one_cast HL; intros s [H _]; exact H|intros _].
    apply hoare_ret. }
  unfold when at 1. eapply hoare_bind; [apply hoare_ret|intros _].
  destruct (mem x OCFilterProvider.int_types); unfold when.
  - eapply hoare_bind;
      [one_cast HL; intros s [_ H]; apply H; intros b; exact I|intros _].
    eapply hoare_bind;
      [one_cast HL; intros s [_ H]; apply H; intros b; exact I|intros _].
    one_cast HL. intros s [H _]. exact H.
  - eapply hoare_weaken; [apply hoare_ret|]. apply loop_invariant_tail.
Qed.

Lemma for_each_cast_column_raises (rest : list string) :
  forall pre, L = (pre ++ rest)%list ->
  hoare (loop_invariant L rest)
    (for_each rest (OCFilterProvider.cast_column to_datetime))
    (loop_invariant L []) casting_error.
Proof.
  induction rest as [|x r IH]; intros pre HL; simpl; [apply hoare_ret|].
  eapply hoare_bind; [apply (cast_column_raises x pre r HL)|intros _].
  apply (IH (pre ++ [x])%list). rewrite <- app_assoc. exact HL.
Qed.

End ExceptionFacts.

(** On a table of text, as the loader gives it and the other filters
    leave it, [type_casting] raises nothing but the failure of a
    conversion, or the refusal of a repeated label: a cast never meets
    a cell that is no text, nor a label that is gone. *)
Lemma type_casting_raises_only (to_datetime : string -> option Z)
  (ocdata : frame string) (s : frame cell) (e : exn) :
  OCFilterProvider.type_casting to_datetime (as_cells ocdata) = (s, inl e) ->
  casting_error e.
Proof.
  intros H. unfold OCFilterProvider.type_casting in H.
  pose proof (for_each_cast_column_raises to_datetime (labels (as_cells ocdata))
                (labels (as_cells ocdata)) [] eq_refl (as_cells ocdata)) as K.
  rewrite H in K. apply K. split; [reflexivity|].
  intros l xs Hin _. unfold as_cells in Hin. simpl in Hin.
  apply in_map_iff in Hin as [[l' ys] [E _]]. injection E as _ <-.
  apply Forall_forall. intros c Hc. apply in_map_iff in Hc as [t [<- _]]. exact I.
Qed.

(** ** The Duration column *)

Section DurationFacts.

Variable to_datetime : string -> option Z.


End DurationFacts.



(** ** The Observation profile *)

Section ProfileFacts.

Variable to_datetime : string -> option Z.

Lemma observation_filters_available :
  OCFilterProvider.issubset OCObservationData_filters OCFilterProvider.AVAILABLE = true.
Proof. reflexivity. Qed.

(** The table as the first three filters of the Observation profile
    leave it, when it came without a User column: relabelled, with a
    blank User column at its end, and recoded. *)
Lemma user_column_before_extension (data : frame string) :
  has "User" data = false ->
  select "User"
    (OCFilterProvider.odour_literals_to_numbers
       (OCFilterProvider.fix_userids (OCFilterProvider.fix_typos data)))
  = [repeat "" (nrows data)].
Proof.
  intros H. unfold OCFilterProvider.odour_literals_to_numbers.
  rewrite !select_replace. simpl.
  unfold OCFilterProvider.fix_userids.
  rewrite select_fix_typos_user, H. simpl.
  rewrite setitem_scalar_absent by (rewrite select_fix_typos_user; exact H).
  rewrite select_extend, select_absent by (rewrite select_fix_typos_user; exact H).
  rewrite fix_typos_relabels. reflexivity.
Qed.

(** The run of the Observation profile, step by step: the first three
    filters always return; [add_analyst_fields] and [type_casting] can
    raise, and [type_casting] returns [None]. *)
Lemma observation_run (data : frame string) :
  OCFilterProvider.__init__ to_datetime data OCObservationData_filters
  = match OCFilterProvider.add_analyst_fields
            (OCFilterProvider.odour_literals_to_numbers
               (OCFilterProvider.fix_userids (OCFilterProvider.fix_typos data)))
    with
    | (t4, inl e) =>
        OCFilterProvider.Aborted e (as_cells t4)
          ["fix_typos"; "fix_userids"; "odour_literals_to_numbers";
           "add_analyst_fields"]
    | (t4, inr _) =>
        match OCFilterProvider.type_casting to_datetime (as_cells t4) with
        | (t5, inl e) => OCFilterProvider.Aborted e t5 OCObservationData_filters
        | (t5, inr _) =>
            OCFilterProvider.Finished (OCFilterProvider.NoneAfter t5)
              OCObservationData_filters
        end
    end.
Proof.
  unfold OCFilterProvider.__init__.
  rewrite observation_filters_available. simpl negb. cbv iota.
  unfold OCObservationData_filters. cbn [OCFilterProvider.__run__].
  change (OCFilterProvider.call_filter to_datetime "fix_typos" (OCFilterProvider.Table data))
    with (OCFilterProvider.Returns
            (OCFilterProvider.Table (OCFilterProvider.fix_typos data))).
  cbv iota beta.
  set (t1 := OCFilterProvider.fix_typos data).
  change (OCFilterProvider.call_filter to_datetime "fix_userids" (OCFilterProvider.Table t1))
    with (OCFilterProvider.Returns
            (OCFilterProvider.Table (OCFilterProvider.fix_userids t1))).
  cbv iota beta.
  set (t2 := OCFilterProvider.fix_userids t1).
  change (OCFilterProvider.call_filter to_datetime "odour_literals_to_numbers"
            (OCFilterProvider.Table t2))
    with (OCFilterProvider.Returns
            (OCFilterProvider.Table (OCFilterProvider.odour_literals_to_numbers t2))).
  cbv iota beta.
  set (t3 := OCFilterProvider.odour_literals_to_numbers t2).
  change (OCFilterProvider.call_filter to_datetime "add_analyst_fields"
            (OCFilterProvider.Table t3))
    with (match OCFilterProvider.add_analyst_fields t3 with
          | (ocdata, inr _) => OCFilterProvider.Returns (OCFilterProvider.Table ocdata)
          | (ocdata, inl e) => OCFilterProvider.Raises e (as_cells ocdata)
          end).
  destruct (OCFilterProvider.add_analyst_fields t3) as [t4 [e|u]]; [reflexivity|].
  cbv iota beta.
  change (OCFilterProvider.call_filter to_datetime "type_casting" (OCFilterProvider.Table t4))
    with (match OCFilterProvider.type_casting to_datetime (as_cells t4) with
          | (ocdata, inr _) => OCFilterProvider.Returns (OCFilterProvider.NoneAfter ocdata)
          | (ocdata, inl e) => OCFilterProvider.Raises e ocdata
          end).
  destruct (OCFilterProvider.type_casting to_datetime (as_cells t4)) as [t5 [e|u']];
    reflexivity.
Qed.

(** C9. On a table that came without a User column, the Observation
    profile's five filters either run to their end, and then the table
    they leave has one User column, a category label in every row, the
    label being the empty text, on the rows the table had; or the run
    is cut short by the AssertionError of [add_analyst_fields] or by a
    failed cast of [type_casting]. *)
Theorem observation_profile_user_column (data : frame string) :
  has "User" data = false ->
  match OCFilterProvider.__init__ to_datetime data OCObservationData_filters with
  | OCFilterProvider.Finished v _ =>
      select "User" (OCFilterProvider.object_of v) = [repeat (Label "") (nrows data)] /\
      nrows (OCFilterProvider.object_of v) = nrows data
  | OCFilterProvider.Aborted e _ _ => e = SchemaConflict \/ casting_error e
  end.
Proof.
  intros Huser. rewrite observation_run.
  set (t3 := OCFilterProvider.odour_literals_to_numbers
               (OCFilterProvider.fix_userids (OCFilterProvider.fix_typos data))).
  assert (H3 : select "User" t3 = [repeat "" (nrows data)])
    by (apply user_column_before_extension; exact Huser).
  assert (N3 : nrows t3 = nrows data).
  { unfold t3. rewrite nrows_odour_literals_to_numbers, nrows_fix_userids.
    apply nrows_fix_typos. }
  destruct (forallb (fun n => negb (has n t3)) OCFilterProvider.analyst_fields) eqn:Fresh.
  2:{ unfold OCFilterProvider.add_analyst_fields.
      rewrite (add_analyst_field_loop _ analyst_fields_distinct), Fresh.
      left. reflexivity. }
  rewrite (add_analyst_fields_fresh _ Fresh).
  set (t4 := extend t3 OCFilterProvider.analyst_fields).
  pose proof (type_casting_keeps_labels to_datetime (as_cells t4)) as [_ Hn].
  pose proof (type_casting_raises_only to_datetime t4) as Hraise.
  destruct (OCFilterProvider.type_casting to_datetime (as_cells t4))
    as [t5 [e|[]]] eqn:Cast.
  { right. apply (Hraise t5 e). reflexivity. }
  simpl in Hn |- *. split; [|rewrite Hn; exact N3].
  assert (H4 : select "User" (as_cells t4) = [repeat (Text "") (nrows data)]).
  { rewrite select_as_cells. unfold t4. rewrite select_extend, H3. simpl.
    rewrite map_repeat. reflexivity. }
  destruct (type_casting_once to_datetime "User" _ _ t5 H4 Cast) as [s1 [s2 [K1 [K2 K3]]]].
  rewrite cast_column_user in K2. inversion K2; subst s2; clear K2.
  rewrite K3, select_map_label. simpl. rewrite K1. simpl.
  rewrite map_repeat. reflexivity.
Qed.

End ProfileFacts.

Lemma observation_profile_user_column_witness :
  select "User"
    (OCFilterProvider.object_of
       (OCFilterProvider.NoneAfter
          (mkFrame 2
             [("Intensity", [Int 2; Int 6]);
              ("Day", [Date 18262; Date 18262]);
              ("User", [Label ""; Label ""]);
              ("Typeoverride", [Text ""; Text ""]);
              ("Subtypeoverride", [Text ""; Text ""]);
              ("Intensityoverride", [Label ""; Label ""]);
              ("Annoyoverride", [Label ""; Label ""]);
              ("Analystcomments", [Text ""; Text ""])])))
  = [repeat (Label "") 2] /\
  nrows
    (OCFilterProvider.object_of
       (OCFilterProvider.NoneAfter
          (mkFrame 2
             [("Intensity", [Int 2; Int 6]);
              ("Day", [Date 18262; Date 18262]);
              ("User", [Label ""; Label ""]);
              ("Typeoverride", [Text ""; Text ""]);
              ("Subtypeoverride", [Text ""; Text ""]);
              ("Intensityoverride", [Label ""; Label ""]);
              ("Annoyoverride", [Label ""; Label ""]);
              ("Analystcomments", [Text ""; Text ""])])))
  = 2%nat.
Proof.
  apply (observation_profile_user_column
           (fun s => if String.eqb s "2020-01-01" then Some 18262 else None)
           (mkFrame 2 [("Intentity", ["Weak"; "Extremely strong"]);
                       ("day", ["2020-01-01"; "2020-01-01"])])).
  reflexivity.
Defined.

(** * Further properties *)

(** ** Paths *)

Lemma rfind_none (c : ascii) (s : string) : occurs c s = false -> rfind c s = -1.
Proof.
  intros H. pose proof (rfind_before c s 0 H). pose proof (rfind_lower c s). lia.
Qed.

Lemma rfind_neg_occurs (c : ascii) (s : string) : rfind c s = -1 -> occurs c s = false.
Proof.
  induction s as [|x r IH]; simpl; [reflexivity|].
  destruct (0 <=? rfind c r) eqn:E.
  - apply Z.leb_le in E. lia.
  - destruct (Ascii.eqb x c); [lia|]. intros _. simpl. apply IH.
    apply Z.leb_gt in E. pose proof (rfind_lower c r). lia.
Qed.

Lemma rfind_upper (c : ascii) (s : string) : rfind c s < Z.of_nat (String.length s).
Proof.
  induction s as [|x r IH]; simpl String.length; simpl rfind; [lia|].
  destruct (0 <=? rfind c r); [lia|]. destruct (Ascii.eqb x c); lia.
Qed.

Lemma rfind_app (c : ascii) (a b : string) :
  rfind c (a ++ b)
  = if 0 <=? rfind c b then Z.of_nat (String.length a) + rfind c b else rfind c a.
Proof.
  induction a as [|x r IH].
  - simpl. destruct (0 <=? rfind c b) eqn:E; [reflexivity|].
    apply Z.leb_gt in E. pose proof (rfind_lower c b). lia.
  - cbn [append rfind String.length]. rewrite IH.
    destruct (0 <=? rfind c b) eqn:E; [|reflexivity].
    apply Z.leb_le in E.
    replace (0 <=? Z.of_nat (String.length r) + rfind c b) with true
      by (symmetry; apply Z.leb_le; lia).
    lia.
Qed.

Lemma occurs_app (c : ascii) (a b : string) :
  occurs c (a ++ b) = occurs c a || occurs c b.
Proof.
  induction a as [|x r IH]; simpl; [reflexivity|]. rewrite IH, orb_assoc. reflexivity.
Qed.

Lemma drop_app (a b : string) : drop (String.length a) (a ++ b) = b.
Proof. induction a as [|x r IH]; simpl; [destruct b; reflexivity|exact IH]. Qed.

Lemma take_app (a b : string) : take (String.length a) (a ++ b) = a.
Proof. induction a as [|x r IH]; simpl; [reflexivity|rewrite IH; reflexivity]. Qed.

Lemma occurs_take (c : ascii) (s : string) (n : nat) :
  occurs c s = false -> occurs c (take n s) = false.
Proof.
  revert n. induction s as [|x r IH]; intros [|n] H; simpl; try reflexivity.
  simpl in H. apply orb_false_iff in H as [Hx Hr]. rewrite Hx. simpl. apply IH, Hr.
Qed.

(** The last component of a path has no separator in it. *)
Lemma basename_no_slash (p : string) : occurs slash (posixpath.basename p) = false.
Proof.
  unfold posixpath.basename. pose proof (rfind_lower slash p) as L.
  destruct (Z.eq_dec (rfind slash p) (-1)) as [E|N].
  - rewrite E. simpl. apply rfind_neg_occurs. exact E.
  - destruct (drop_rfind slash p) as [rest [Hd Ho]]; [lia|].
    replace (Z.to_nat (rfind slash p + 1)) with (S (Z.to_nat (rfind slash p))) by lia.
    assert (K : forall n s x t, drop n s = String x t -> drop (S n) s = t).
    { clear. induction n as [|n IH]; intros [|y s] x t H; simpl in *; try discriminate.
      - inversion H. destruct t; reflexivity.
      - apply (IH s x t H). }
    rewrite (K _ _ _ _ Hd). exact Ho.
Qed.

Lemma basename_of_name (p : string) :
  occurs slash p = false -> posixpath.basename p = p.
Proof.
  intros H. unfold posixpath.basename. rewrite (rfind_none _ _ H). reflexivity.
Qed.

(** A directory part in front of a name is dropped. *)
Lemma basename_app (dir name : string) :
  occurs slash name = false -> posixpath.basename (dir ++ "/" ++ name) = name.
Proof.
  intros H. unfold posixpath.basename.
  rewrite rfind_app.
  assert (R : rfind slash ("/" ++ name) = 0).
  { cbn [append rfind]. rewrite (rfind_none _ _ H). reflexivity. }
  rewrite R. change (0 <=? 0) with true. cbv iota.
  change ("/" ++ name) with (String slash name).
  replace (Z.to_nat (Z.of_nat (String.length dir) + 0 + 1))
    with (S (String.length dir)) by lia.
  assert (K : forall a x b, drop (S (String.length a)) (a ++ String x b) = b).
  { clear. induction a as [|y a IH]; intros x b; simpl; [destruct b; reflexivity|].
    apply IH. }
  apply K.
Qed.

Lemma fst_splitext_no_slash (q : string) :
  occurs slash q = false -> occurs slash (fst (posixpath.splitext q)) = false.
Proof.
  intros H. unfold posixpath.splitext.
  destruct (rfind slash q <? rfind dot q); [|exact H].
  generalize (Z.to_nat (rfind dot q - (rfind slash q + 1))) as fuel.
  generalize (rfind slash q + 1).
  intros i fuel. revert i. induction fuel as [|k IH]; intros i; simpl.
  - exact H.
  - destruct (String.eqb (char_at q i) "."); [apply IH|].
    simpl. apply occurs_take. exact H.
Qed.

Lemma length_app_string (a b : string) :
  String.length (a ++ b) = (String.length a + String.length b)%nat.
Proof. induction a as [|x r IH]; simpl; [reflexivity|rewrite IH; reflexivity]. Qed.

Lemma length_drop (n : nat) (s : string) :
  String.length (drop n s) = (String.length s - n)%nat.
Proof.
  revert s. induction n as [|n IH]; intros [|x r]; simpl; try reflexivity. apply IH.
Qed.

Lemma drop_app_le (n : nat) (a b : string) :
  (n <= String.length a)%nat -> drop n (a ++ b) = drop n a ++ b.
Proof.
  revert a. induction n as [|n IH]; intros [|x r] H; simpl in *;
    try reflexivity; try lia.
  apply IH. lia.
Qed.

Lemma drop_cons (i : nat) (p : string) :
  (i < String.length p)%nat ->
  exists x r, drop i p = String x r /\ drop (S i) p = r.
Proof.
  revert p. induction i as [|i IH]; intros [|y p] H; simpl in *; try lia.
  - exists y, p. split; [reflexivity|destruct p; reflexivity].
  - apply IH. lia.
Qed.

(** The loop over leading dots gives up exactly when everything from the
    start of the file name to the last dot is dots. *)
Lemma skip_leading_dots_all_dots (p : string) (dotIndex : Z) (fuel : nat) :
  forall i : nat,
    (i + fuel <= String.length p)%nat ->
    posixpath.skip_leading_dots p dotIndex (Z.of_nat i) fuel
    = if all_dots (take fuel (drop i p)) then (p, EmptyString)
      else (take (Z.to_nat dotIndex) p, drop (Z.to_nat dotIndex) p).
Proof.
  induction fuel as [|k IH]; intros i H; [reflexivity|].
  destruct (drop_cons i p) as [x [r [Hd Hr]]]; [lia|].
  cbn [posixpath.skip_leading_dots]. unfold char_at.
  rewrite Nat2Z.id, Hd. cbn [take all_dots String.eqb].
  replace (Z.of_nat i + 1) with (Z.of_nat (S i)) by lia.
  rewrite (IH (S i)) by lia. rewrite Hr.
  unfold dot. destruct (Ascii.eqb x "."); reflexivity.
Qed.

(** [splitext] undoes the joining of a root and an extension, unless the
    file name part of the root is empty or all dots. *)
Lemma splitext_app (root ext : string) :
  occurs dot ext = false ->
  occurs slash ext = false ->
  posixpath.splitext (root ++ "." ++ ext)
  = if all_dots (posixpath.basename root) then (root ++ "." ++ ext, EmptyString)
    else (root, "." ++ ext).
Proof.
  intros Hd Hs. unfold posixpath.splitext, posixpath.basename.
  change ("." ++ ext) with (String dot ext).
  rewrite !rfind_app.
  assert (Rs : rfind slash (String dot ext) = -1).
  { apply rfind_none. simpl. exact Hs. }
  assert (Rd : rfind dot (String dot ext) = 0).
  { cbn [rfind]. rewrite (rfind_none _ _ Hd). reflexivity. }
  rewrite Rs, Rd. change (0 <=? -1) with false. change (0 <=? 0) with true. cbv iota.
  pose proof (rfind_lower slash root) as L. pose proof (rfind_upper slash root) as U.
  replace (rfind slash root <? Z.of_nat (String.length root) + 0) with true
    by (symmetry; apply Z.ltb_lt; lia).
  set (i := Z.to_nat (rfind slash root + 1)).
  replace (rfind slash root + 1) with (Z.of_nat i) by (unfold i; lia).
  rewrite skip_leading_dots_all_dots
    by (rewrite length_app_string; unfold i; simpl; lia).
  rewrite drop_app_le by (unfold i; lia).
  replace (Z.to_nat (Z.of_nat (String.length root) + 0 - Z.of_nat i))
    with (String.length (drop i root)) by (rewrite length_drop; unfold i; lia).
  rewrite take_app.
  replace (Z.to_nat (Z.of_nat (String.length root) + 0)) with (String.length root) by lia.
  rewrite take_app, drop_app. reflexivity.
Qed.

Lemma all_dots_no_dot (s : string) :
  occurs dot s = false -> s <> EmptyString -> all_dots s = false.
Proof.
  destruct s as [|x r]; [contradiction|]. simpl. intros H _.
  apply orb_false_iff in H as [Hx _]. rewrite Hx. reflexivity.
Qed.

Lemma occurs_drop (c : ascii) (s : string) (n : nat) :
  occurs c s = false -> occurs c (drop n s) = false.
Proof.
  revert n. induction s as [|x r IH]; intros [|n] H; simpl; try reflexivity; try exact H.
  simpl in H. apply orb_false_iff in H as [_ Hr]. apply IH, Hr.
Qed.

Lemma char_at_no_slash (a : string) (i : Z) :
  occurs slash a = false -> String.eqb (char_at a i) "/" = false.
Proof.
  intros H. unfold char_at. pose proof (occurs_drop slash a (Z.to_nat i) H) as K.
  destruct (drop (Z.to_nat i) a) as [|x r]; [reflexivity|].
  simpl in K. apply orb_false_iff in K as [Kx _]. simpl.
  unfold slash in Kx. rewrite Kx. reflexivity.
Qed.

Lemma join_in_folder (folder name : string) :
  folder <> EmptyString ->
  occurs slash folder = false ->
  occurs slash name = false ->
  posixpath.join folder (name ++ ".conf") = folder ++ "/" ++ name ++ ".conf".
Proof.
  intros Hne Hf Hn. unfold posixpath.join.
  assert (P : is_prefix "/" (name ++ ".conf") = false).
  { destruct name as [|x r]; [reflexivity|]. cbn [occurs] in Hn.
    apply orb_false_iff in Hn as [Hx _].
    change (is_prefix "/" (String x r ++ ".conf"))
      with (Ascii.eqb slash x && is_prefix EmptyString (r ++ ".conf")).
    rewrite Ascii.eqb_sym, Hx. reflexivity. }
  rewrite P, (char_at_no_slash _ _ Hf).
  destruct folder as [|y t]; [contradiction|]. reflexivity.
Qed.

(** ** GenericOCData, further *)

Section LoaderExtras.

Variable table : Type.
Variable read_csv read_excel : string -> option table.

(** X1. Under [auto], a file name made of a root, a dot and a suffix
    with no dot or separator in it is loaded as if the suffix had been
    given as the type, unless the file name part of the root is empty
    or all dots (a hidden file such as [.csv]): then the suffix is not
    seen as an extension and the constructor raises IndexError. *)
Theorem auto_detection_follows_suffix (root ext : string) :
  occurs dot ext = false ->
  occurs slash ext = false ->
  GenericOCData.__init__ read_csv read_excel (root ++ "." ++ ext) "auto"
  = if all_dots (posixpath.basename root) then inl IndexError
    else GenericOCData.__init__ read_csv read_excel (root ++ "." ++ ext) ext.
Proof.
  intros Hd Hs.
  assert (Detected :
            nth_error (split dot (snd (posixpath.splitext (root ++ "." ++ ext)))) 1
            = if all_dots (posixpath.basename root) then None else Some ext).
  { rewrite (splitext_app root ext Hd Hs).
    destruct (all_dots (posixpath.basename root)); [reflexivity|].
    cbn [snd]. change ("." ++ ext) with (String dot ext).
    cbn [split]. unfold dot at 1 2. rewrite Ascii.eqb_refl. fold dot.
    rewrite (split_without _ _ Hd). reflexivity. }
  destruct (String.eqb_spec ext "auto") as [E|N].
  - destruct (all_dots (posixpath.basename root)) eqn:A; [|rewrite E; reflexivity].
    unfold GenericOCData.__init__. change (String.eqb "auto" "auto") with true.
    cbv iota. rewrite Detected. reflexivity.
  - unfold GenericOCData.__init__. change (String.eqb "auto" "auto") with true.
    cbv iota. rewrite Detected. apply String.eqb_neq in N. rewrite N.
    destruct (all_dots (posixpath.basename root)); reflexivity.
Qed.

End LoaderExtras.

Lemma auto_detection_follows_suffix_witness :
  GenericOCData.__init__
    (fun _ => Some (mkFrame 1 [("Type", ["Waste"])])) (fun _ => None)
    "exports.2020/observations.csv" "auto"
  = inr (mkFrame 1 [("Type", ["Waste"])]) /\
  GenericOCData.__init__
    (fun _ => Some (mkFrame 1 [("Type", ["Waste"])])) (fun _ => None)
    "exports.2020/.csv" "auto"
  = inl IndexError.
Proof.
  split.
  - apply (auto_detection_follows_suffix (frame string)
             (fun _ => Some (mkFrame 1 [("Type", ["Waste"])])) (fun _ => None)
             "exports.2020/observations" "csv"); reflexivity.
  - apply (auto_detection_follows_suffix (frame string)
             (fun _ => Some (mkFrame 1 [("Type", ["Waste"])])) (fun _ => None)
             "exports.2020/" "csv"); reflexivity.
Defined.

(** ** OCMapConfig, further *)

Section ConfigExtras.

Variable eval : string -> OCMapConfig.eval_result.
Variable isdir isfile : string -> bool.
Variable read : string -> string.

(** X2. An instance only ever looks at a file directly inside its
    folder. With [isdir ''] false, as [os.path.isdir] has it, the folder
    the constructor keeps is one path component, and for every
    requested name [get] tests and reads one path, the folder, one
    separator, a name with no separator in it, and [.conf]: whatever
    directories the request names are dropped. *)
Theorem config_lookup_stays_in_folder (conf_folder folder conf_name : string) :
  isdir "" = false ->
  OCMapConfig.__init__ isdir conf_folder = inr folder ->
  exists name,
    occurs slash folder = false /\
    occurs slash name = false /\
    OCMapConfig.get eval isfile read folder conf_name
    = if isfile (folder ++ "/" ++ name ++ ".conf") then
        match eval (read (folder ++ "/" ++ name ++ ".conf")) with
        | OCMapConfig.Value v => inr v
        | OCMapConfig.SyntaxError => inl ConfigMalformed
        | OCMapConfig.OtherError => inl EvalError
        end
      else inl ConfigNotFound.
Proof.
  intros Hempty Hinit. unfold OCMapConfig.__init__ in Hinit.
  set (f := fst (posixpath.splitext (posixpath.basename conf_folder))) in *.
  destruct (isdir f) eqn:D; [|discriminate]. inversion Hinit; subst folder; clear Hinit.
  assert (Hf : occurs slash f = false)
    by (apply fst_splitext_no_slash, basename_no_slash).
  assert (Hne : f <> EmptyString).
  { intros E. rewrite E in D. rewrite Hempty in D. discriminate. }
  exists (fst (posixpath.splitext (posixpath.basename conf_name))).
  assert (Hn : occurs slash (fst (posixpath.splitext (posixpath.basename conf_name)))
               = false)
    by (apply fst_splitext_no_slash, basename_no_slash).
  split; [exact Hf|]. split; [exact Hn|].
  unfold OCMapConfig.get. rewrite (join_in_folder _ _ Hne Hf Hn). reflexivity.
Qed.

(** X3. The directory part of a requested name and its extension do not
    count: for a name with no separator and no dot in it, asking for
    the name behind any directory and with any extension is asking for
    the name. So [get('m.conf')] and [get('/etc/m.txt')] are
    [get('m')]. *)
Theorem get_drops_directory_and_extension (conf_folder dir name ext : string) :
  name <> EmptyString ->
  occurs slash name = false -> occurs dot name = false ->
  occurs slash ext = false -> occurs dot ext = false ->
  OCMapConfig.get eval isfile read conf_folder (dir ++ "/" ++ name ++ "." ++ ext)
  = OCMapConfig.get eval isfile read conf_folder name /\
  OCMapConfig.get eval isfile read conf_folder (name ++ "." ++ ext)
  = OCMapConfig.get eval isfile read conf_folder name.
Proof.
  intros Hne Hs Hd Hes Hed.
  assert (Hfull : occurs slash (name ++ "." ++ ext) = false).
  { rewrite occurs_app, Hs. simpl. exact Hes. }
  assert (S1 : fst (posixpath.splitext (name ++ "." ++ ext)) = name).
  { rewrite (splitext_app name ext Hed Hes), (basename_of_name _ Hs).
    rewrite (all_dots_no_dot _ Hd Hne). reflexivity. }
  assert (S2 : fst (posixpath.splitext name) = name).
  { rewrite splitext_no_dot; [reflexivity|].
    rewrite (basename_of_name _ Hs). exact Hd. }
  unfold OCMapConfig.get.
  rewrite (basename_app dir _ Hfull), (basename_of_name _ Hfull),
    (basename_of_name _ Hs), S1, S2.
  split; reflexivity.
Qed.

End ConfigExtras.

Lemma config_lookup_stays_in_folder_witness :
  exists name,
    occurs slash "mapconf" = false /\
    occurs slash name = false /\
    OCMapConfig.get (fun _ => OCMapConfig.Value (OCMapConfig.PyDict []))
      (String.eqb "mapconf/passwd.conf") (fun _ => "{}") "mapconf" "../../etc/passwd"
    = if String.eqb "mapconf/passwd.conf" ("mapconf" ++ "/" ++ name ++ ".conf") then
        match (fun _ : string => OCMapConfig.Value (OCMapConfig.PyDict []))
                ((fun _ : string => "{}") ("mapconf" ++ "/" ++ name ++ ".conf")) with
        | OCMapConfig.Value v => inr v
        | OCMapConfig.SyntaxError => inl ConfigMalformed
        | OCMapConfig.OtherError => inl EvalError
        end
      else inl ConfigNotFound.
Proof.
  apply (config_lookup_stays_in_folder
           (fun _ => OCMapConfig.Value (OCMapConfig.PyDict []))
           (String.eqb "mapconf") (String.eqb "mapconf/passwd.conf") (fun _ => "{}")
           "/srv/app/mapconf" "mapconf" "../../etc/passwd"); reflexivity.
Defined.

Lemma get_drops_directory_and_extension_witness :
  OCMapConfig.get (fun _ => OCMapConfig.Value (OCMapConfig.PyDict []))
    (String.eqb "mapconf/m.conf") (fun _ => "{}") "mapconf" ("/etc" ++ "/" ++ "m" ++ "." ++ "txt")
  = OCMapConfig.get (fun _ => OCMapConfig.Value (OCMapConfig.PyDict []))
      (String.eqb "mapconf/m.conf") (fun _ => "{}") "mapconf" "m" /\
  OCMapConfig.get (fun _ => OCMapConfig.Value (OCMapConfig.PyDict []))
    (String.eqb "mapconf/m.conf") (fun _ => "{}") "mapconf" ("m" ++ "." ++ "txt")
  = OCMapConfig.get (fun _ => OCMapConfig.Value (OCMapConfig.PyDict []))
      (String.eqb "mapconf/m.conf") (fun _ => "{}") "mapconf" "m".
Proof.
  apply (get_drops_directory_and_extension
           (fun _ => OCMapConfig.Value (OCMapConfig.PyDict []))
           (String.eqb "mapconf/m.conf") (fun _ => "{}") "mapconf" "/etc" "m" "txt");
    try reflexivity.
  discriminate.
Defined.

(** ** fix_typos and fix_userids, further *)

(** X4. [fix_typos] touches labels only: the rows, the cells and the
    order of the columns stay; each label becomes its canonical form,
    so that none of the three mistyped labels is left; and a table
    with none of them comes back as it was. *)
Theorem fix_typos_only_relabels (ocdata : frame string) :
  nrows (OCFilterProvider.fix_typos ocdata) = nrows ocdata /\
  map snd (columns (OCFilterProvider.fix_typos ocdata)) = map snd (columns ocdata) /\
  labels (OCFilterProvider.fix_typos ocdata) = map canonical (labels ocdata) /\
  Forall (fun t => has (fst t) (OCFilterProvider.fix_typos ocdata) = false) typos /\
  (Forall (fun t => has (fst t) ocdata = false) typos ->
   OCFilterProvider.fix_typos ocdata = ocdata).
Proof.
  split; [apply nrows_fix_typos|].
  split; [rewrite fix_typos_relabels; simpl; rewrite map_map; reflexivity|].
  split; [apply labels_fix_typos|]. split.
  - assert (K : forall l, canonical l <> "Intentity" /\ canonical l <> "day"
                          /\ canonical l <> "time").
    { intros l. unfold canonical.
      destruct (String.eqb_spec l "Intentity"); [repeat split; discriminate|].
      destruct (String.eqb_spec l "day"); [repeat split; discriminate|].
      destruct (String.eqb_spec l "time"); [repeat split; discriminate|].
      auto. }
    unfold typos.
    repeat (constructor;
            [simpl; unfold has; apply mem_false; rewrite labels_fix_typos;
             intros H; apply in_map_iff in H as [l [E _]];
             destruct (K l) as [K1 [K2 K3]]; congruence|]).
    constructor.
  - unfold typos. intros H.
    inversion H as [|? ? H1 H']; subst. inversion H' as [|? ? H2 H'']; subst.
    inversion H'' as [|? ? H3 _]; subst. simpl in H1, H2, H3.
    unfold OCFilterProvider.fix_typos. rewrite H1, H2, H3. reflexivity.
Qed.

(** X5. [fix_userids] keeps the columns that are there and adds at most
    one, a blank User column at the end, when there is none; after it
    a User column is there, and a second application changes nothing. *)
Theorem fix_userids_adds_once (ocdata : frame string) :
  nrows (OCFilterProvider.fix_userids ocdata) = nrows ocdata /\
  columns (OCFilterProvider.fix_userids ocdata)
  = (columns ocdata
     ++ if has "User" ocdata then [] else [("User", repeat "" (nrows ocdata))])%list /\
  has "User" (OCFilterProvider.fix_userids ocdata) = true /\
  OCFilterProvider.fix_userids (OCFilterProvider.fix_userids ocdata)
  = OCFilterProvider.fix_userids ocdata.
Proof.
  assert (Has : has "User" (OCFilterProvider.fix_userids ocdata) = true).
  { unfold OCFilterProvider.fix_userids.
    destruct (has "User" ocdata) eqn:U; simpl; [exact U|].
    rewrite (setitem_scalar_absent _ _ U), has_extend. apply orb_true_r. }
  split; [apply nrows_fix_userids|]. split.
  - unfold OCFilterProvider.fix_userids.
    destruct (has "User" ocdata) eqn:U; simpl; [rewrite app_nil_r; reflexivity|].
    rewrite (setitem_scalar_absent _ _ U). reflexivity.
  - split; [exact Has|].
    unfold OCFilterProvider.fix_userids at 1. rewrite Has. reflexivity.
Qed.

(** ** odour_literals_to_numbers, further *)

Lemma lookup_In {V} (k : string) (d : list (string * V)) (v : V) :
  lookup k d = Some v -> In v (map snd d).
Proof.
  induction d as [|[k' w] r IH]; simpl; [discriminate|].
  destruct (String.eqb k k'); [intros H; inversion H; auto|].
  intros H. right. apply IH, H.
Qed.

(** A value goes through a dictionary unchanged, being no key of it, or
    comes out as one of its codes. *)
Lemma substitute_cases (d : list (string * string)) (v : string) :
  (lookup v d = None /\ substitute d v = v) \/ In (substitute d v) (map snd d).
Proof.
  unfold substitute. destruct (lookup v d) as [w|] eqn:E; [right|left; auto].
  apply (lookup_In _ _ _ E).
Qed.

Lemma substitute_fixed (d : list (string * string)) (v : string) :
  lookup v d = None -> substitute d v = v.
Proof. intros H. unfold substitute. rewrite H. reflexivity. Qed.

(** The codes of the four dictionaries are keys of none of them. *)
Lemma codes_are_no_keys (d d' : list (string * string)) (w : string) :
  In d [OCFilterProvider.intensity_mapping; OCFilterProvider.annoy_mapping;
        OCFilterProvider.duration_mapping; OCFilterProvider.bastard_tone_mapping] ->
  In d' [OCFilterProvider.intensity_mapping; OCFilterProvider.annoy_mapping;
         OCFilterProvider.duration_mapping; OCFilterProvider.bastard_tone_mapping] ->
  In w (map snd d) -> lookup w d' = None.
Proof.
  intros Hd Hd' Hw. simpl in Hd, Hd'.
  repeat (destruct Hd as [<-|Hd]; [|]); try contradiction;
    repeat (destruct Hd' as [<-|Hd']; [|]); try contradiction;
    simpl in Hw; repeat (destruct Hw as [<-|Hw]; [reflexivity|]); contradiction.
Qed.

Lemma recode_idempotent (label v : string) :
  recode label (recode label v) = recode label v.
Proof.
  unfold recode.
  destruct (lookup label OCFilterProvider.intensity_and_annoy_mapping) as [d|] eqn:D;
    destruct (lookup label [("Annoy", OCFilterProvider.bastard_tone_mapping)])
      as [b|] eqn:B; try reflexivity.
  - assert (Hb : b = OCFilterProvider.bastard_tone_mapping).
    { simpl in B. destruct (String.eqb label "Annoy"); inversion B; reflexivity. }
    assert (Hd : In d [OCFilterProvider.intensity_mapping;
                       OCFilterProvider.annoy_mapping;
                       OCFilterProvider.duration_mapping;
                       OCFilterProvider.bastard_tone_mapping]).
    { apply lookup_In in D. simpl in D. simpl. tauto. }
    assert (Hb' : In b [OCFilterProvider.intensity_mapping;
                        OCFilterProvider.annoy_mapping;
                        OCFilterProvider.duration_mapping;
                        OCFilterProvider.bastard_tone_mapping])
      by (rewrite Hb; simpl; tauto).
    destruct (substitute_cases d v) as [[_ Ev]|Hv].
    + rewrite Ev. destruct (substitute_cases b v) as [[_ Ew]|Hw].
      * rewrite Ew, Ev. exact Ew.
      * rewrite (substitute_fixed d _ (codes_are_no_keys b d _ Hb' Hd Hw)).
        apply substitute_fixed. apply (codes_are_no_keys b b _ Hb' Hb' Hw).
    + rewrite (substitute_fixed b _ (codes_are_no_keys d b _ Hd Hb' Hv)).
      rewrite (substitute_fixed d _ (codes_are_no_keys d d _ Hd Hd Hv)).
      apply substitute_fixed. apply (codes_are_no_keys d b _ Hd Hb' Hv).
  - assert (Hd : In d [OCFilterProvider.intensity_mapping;
                       OCFilterProvider.annoy_mapping;
                       OCFilterProvider.duration_mapping;
                       OCFilterProvider.bastard_tone_mapping]).
    { apply lookup_In in D. simpl in D. simpl. tauto. }
    destruct (substitute_cases d v) as [[_ Ev]|Hv].
    + rewrite Ev. exact Ev.
    + apply substitute_fixed. apply (codes_are_no_keys d d _ Hd Hd Hv).
  - assert (Hb : In b [OCFilterProvider.intensity_mapping;
                       OCFilterProvider.annoy_mapping;
                       OCFilterProvider.duration_mapping;
                       OCFilterProvider.bastard_tone_mapping]).
    { apply lookup_In in B. simpl in B. simpl. tauto. }
    destruct (substitute_cases b v) as [[_ Ev]|Hv].
    + rewrite Ev. exact Ev.
    + apply substitute_fixed. apply (codes_are_no_keys b b _ Hb Hb Hv).
Qed.

Lemma odour_literals_columns (ocdata : frame string) :
  OCFilterProvider.odour_literals_to_numbers ocdata
  = mkFrame (nrows ocdata)
      (map (fun c => (fst c, map (recode (fst c)) (snd c))) (columns ocdata)).
Proof.
  unfold OCFilterProvider.odour_literals_to_numbers, replace.
  cbn [nrows columns]. f_equal.
  rewrite map_map. apply map_ext. intros [l xs]. cbn [fst snd]. f_equal. unfold recode.
  destruct (lookup l OCFilterProvider.intensity_and_annoy_mapping);
    destruct (lookup l [("Annoy", OCFilterProvider.bastard_tone_mapping)]);
    try rewrite map_map; try reflexivity.
  symmetry. apply map_id.
Qed.

(** X6. [odour_literals_to_numbers] is idempotent: the codes it writes
    are literals of none of its dictionaries, so a second application
    finds nothing to replace. *)
Theorem odour_literals_idempotent (ocdata : frame string) :
  OCFilterProvider.odour_literals_to_numbers
    (OCFilterProvider.odour_literals_to_numbers ocdata)
  = OCFilterProvider.odour_literals_to_numbers ocdata.
Proof.
  rewrite (odour_literals_columns (OCFilterProvider.odour_literals_to_numbers ocdata)).
  rewrite odour_literals_columns. simpl. f_equal. rewrite map_map.
  apply map_ext. intros [l xs]. simpl. f_equal. rewrite map_map.
  apply map_ext. intros v. apply recode_idempotent.
Qed.

(** X7. [odour_literals_to_numbers] keeps the rows and the labels; it
    leaves every column that is not labelled Intensity, Annoy or
    Duration as it is; and in those three it changes the cells that
    read one of the listed literals only: a value that is no key of the
    column's dictionary (nor, for Annoy, of the correction) stays. *)
Theorem odour_literals_scope (ocdata : frame string) (label : string) :
  nrows (OCFilterProvider.odour_literals_to_numbers ocdata) = nrows ocdata /\
  labels (OCFilterProvider.odour_literals_to_numbers ocdata) = labels ocdata /\
  select label (OCFilterProvider.odour_literals_to_numbers ocdata)
  = map (map (recode label)) (select label ocdata) /\
  (~ In label ["Intensity"; "Annoy"; "Duration"] -> forall v, recode label v = v) /\
  (forall v,
     lookup v OCFilterProvider.intensity_mapping = None ->
     lookup v OCFilterProvider.annoy_mapping = None ->
     lookup v OCFilterProvider.duration_mapping = None ->
     lookup v OCFilterProvider.bastard_tone_mapping = None ->
     recode label v = v).
Proof.
  split; [reflexivity|].
  split; [unfold OCFilterProvider.odour_literals_to_numbers;
          rewrite !labels_replace; reflexivity|].
  split.
  - unfold OCFilterProvider.odour_literals_to_numbers. rewrite !select_replace.
    rewrite map_map. apply map_ext. intros xs. unfold recode.
    destruct (lookup label OCFilterProvider.intensity_and_annoy_mapping);
      destruct (lookup label [("Annoy", OCFilterProvider.bastard_tone_mapping)]);
      try rewrite map_map; try reflexivity.
    symmetry. apply map_id.
  - split.
    + intros N v. unfold recode. simpl.
      destruct (String.eqb_spec label "Intensity");
        [exfalso; apply N; subst; simpl; auto|].
      destruct (String.eqb_spec label "Annoy");
        [exfalso; apply N; subst; simpl; auto|].
      destruct (String.eqb_spec label "Duration");
        [exfalso; apply N; subst; simpl; auto|].
      reflexivity.
    + intros v H1 H2 H3 H4. unfold recode. simpl.
      destruct (String.eqb label "Intensity").
      { rewrite (substitute_fixed _ _ H1).
        destruct (String.eqb label "Annoy");
          [apply (substitute_fixed _ _ H4)|reflexivity]. }
      destruct (String.eqb label "Annoy").
      { rewrite (substitute_fixed _ _ H2). apply (substitute_fixed _ _ H4). }
      destruct (String.eqb label "Duration"); [|reflexivity].
      apply (substitute_fixed _ _ H3).
Qed.

(** ** add_analyst_fields, further *)

(** X8. [add_analyst_fields] returns exactly on the tables that have
    none of the five analyst columns; the table is then the old one
    with the five, blank, at its end, in the order of the list; and the
    filter cannot run a second time: on its own result it raises the
    AssertionError at once, leaving the table as it is. *)
Theorem add_analyst_fields_once (ocdata : frame string) :
  (forallb (fun n => negb (has n ocdata)) OCFilterProvider.analyst_fields = true <->
   exists after, OCFilterProvider.add_analyst_fields ocdata = (after, inr tt)) /\
  (forall after,
     OCFilterProvider.add_analyst_fields ocdata = (after, inr tt) ->
     after = extend ocdata OCFilterProvider.analyst_fields /\
     OCFilterProvider.add_analyst_fields after = (after, inl SchemaConflict)).
Proof.
  assert (Only : forall after,
             OCFilterProvider.add_analyst_fields ocdata = (after, inr tt) ->
             forallb (fun n => negb (has n ocdata)) OCFilterProvider.analyst_fields
             = true).
  { intros after H. unfold OCFilterProvider.add_analyst_fields in H.
    rewrite (add_analyst_field_loop _ analyst_fields_distinct) in H.
    destruct (forallb _ _); [reflexivity|discriminate]. }
  split.
  - split.
    + intros H. eexists. apply (add_analyst_fields_fresh _ H).
    + intros [after H]. apply (Only after H).
  - intros after H. pose proof (Only after H) as Fresh.
    rewrite (add_analyst_fields_fresh _ Fresh) in H. inversion H; subst after; clear H.
    split; [reflexivity|].
    assert (There : has "Typeoverride" (extend ocdata OCFilterProvider.analyst_fields)
                    = true)
      by (rewrite has_extend; apply orb_true_r).
    generalize dependent (extend ocdata OCFilterProvider.analyst_fields).
    intros after There.
    unfold OCFilterProvider.add_analyst_fields, OCFilterProvider.analyst_fields.
    cbn [for_each]. unfold bind. unfold OCFilterProvider.add_analyst_field at 1.
    rewrite There. reflexivity.
Qed.

(** ** From the recoding to the cast *)

(** X9. What the recoding writes, the cast reads: every literal of the
    intensity scale is recoded to a text that [astype(int)] turns into
    a number from 0 to 6, every literal of the annoyance scale and of
    its correction to one from -4 to 4, and every literal of the
    duration mapping to a duration of a whole number of minutes, at
    most a day. *)
Theorem scale_literals_cast :
  Forall (fun kv => exists n,
            astype_int (remove_char space (recode "Intensity" (fst kv))) = inr n /\
            0 <= n <= 6)
         OCFilterProvider.intensity_mapping /\
  Forall (fun kv => exists n,
            astype_int (remove_char space (recode "Annoy" (fst kv))) = inr n /\
            -4 <= n <= 4)
         (OCFilterProvider.annoy_mapping ++ OCFilterProvider.bastard_tone_mapping) /\
  Forall (fun kv => exists m,
            to_minutes (recode "Duration" (fst kv)) = inr m /\ 0 <= m <= 1440)
         OCFilterProvider.duration_mapping.
Proof.
  repeat split;
    repeat (constructor; [eexists; split; [vm_compute; reflexivity|lia]|]);
    constructor.
Qed.

(** ** type_casting, further *)

Section CastingExtras.

Variable to_datetime : string -> option Z.

Lemma cast_column_unlisted (label : string) (s : frame cell) :
  ~ In label (OCFilterProvider.category_types ++ OCFilterProvider.datetime_types
              ++ OCFilterProvider.timedelta_types ++ OCFilterProvider.int_types) ->
  OCFilterProvider.cast_column to_datetime label s = (s, inr tt).
Proof.
  intros H. rewrite !in_app_iff in H.
  assert (C : mem label OCFilterProvider.category_types = false) by (apply mem_false; tauto).
  assert (D : mem label OCFilterProvider.datetime_types = false) by (apply mem_false; tauto).
  assert (T : mem label OCFilterProvider.timedelta_types = false) by (apply mem_false; tauto).
  assert (I : mem label OCFilterProvider.int_types = false) by (apply mem_false; tauto).
  unfold OCFilterProvider.cast_column. rewrite C, D, T, I. reflexivity.
Qed.

(** X11. [type_casting] leaves the columns it has no cast for alone: a
    column whose label is in none of its four lists holds after the
    call what it held before, whether the call returns or raises, and
    whatever else the table holds. *)
Theorem type_casting_leaves_other_columns (label : string) (ocdata : frame cell) :
  ~ In label (OCFilterProvider.category_types ++ OCFilterProvider.datetime_types
              ++ OCFilterProvider.timedelta_types ++ OCFilterProvider.int_types) ->
  select label (fst (OCFilterProvider.type_casting to_datetime ocdata))
  = select label ocdata.
Proof.
  intros H. unfold OCFilterProvider.type_casting.
  apply (stable_for_each (fun t => select label t = select label ocdata));
    [|reflexivity].
  intros x _ t Ht. destruct (string_dec x label) as [->|N].
  - rewrite (cast_column_unlisted label t H). exact Ht.
  - rewrite cast_column_other by (intros E; apply N; symmetry; exact E). exact Ht.
Qed.

(** ** The runner, further *)

Lemma call_filter_on_table (data_filter : string) (ocdata : frame string) :
  match OCFilterProvider.call_filter to_datetime data_filter
          (OCFilterProvider.Table ocdata) with
  | OCFilterProvider.Returns (OCFilterProvider.Table _) => data_filter <> "type_casting"
  | OCFilterProvider.Returns (OCFilterProvider.NoneAfter _) => data_filter = "type_casting"
  | OCFilterProvider.Raises _ _ => True
  end.
Proof.
  unfold OCFilterProvider.call_filter.
  destruct (mem data_filter OCFilterProvider.AVAILABLE) eqn:A; simpl; [|exact I].
  destruct (String.eqb_spec data_filter "fix_typos") as [->|N1]; [discriminate|].
  destruct (String.eqb_spec data_filter "fix_userids") as [->|N2]; [discriminate|].
  destruct (String.eqb_spec data_filter "odour_literals_to_numbers") as [->|N3];
    [discriminate|].
  destruct (String.eqb_spec data_filter "add_analyst_fields") as [->|N4].
  { destruct (OCFilterProvider.add_analyst_fields ocdata) as [t [e|u]];
      [exact I|discriminate]. }
  destruct (OCFilterProvider.type_casting to_datetime (as_cells ocdata)) as [t [e|u]];
    [exact I|].
  apply mem_In in A. simpl in A.
  destruct A as [E|[E|[E|[E|[E|[]]]]]]; congruence.
Qed.

Lemma call_filter_on_none (data_filter : string) (object : frame cell) :
  exists e,
    OCFilterProvider.call_filter to_datetime data_filter
      (OCFilterProvider.NoneAfter object)
    = OCFilterProvider.Raises e object.
Proof.
  unfold OCFilterProvider.call_filter.
  destruct (negb (mem data_filter OCFilterProvider.AVAILABLE)); [eexists; reflexivity|].
  destruct (String.eqb data_filter "odour_literals_to_numbers"); eexists; reflexivity.
Qed.

Lemma run_from_table (filter_list : list string) :
  forall (ocdata : frame string) (stdout : list string),
    match OCFilterProvider.__run__ to_datetime filter_list
            (OCFilterProvider.Table ocdata) stdout with
    | OCFilterProvider.Finished v out =>
        out = (stdout ++ filter_list)%list /\
        match v with
        | OCFilterProvider.Table _ => ~ In "type_casting" filter_list
        | OCFilterProvider.NoneAfter _ =>
            exists before,
              filter_list = (before ++ ["type_casting"])%list /\
              ~ In "type_casting" before
        end
    | OCFilterProvider.Aborted _ _ out =>
        exists before data_filter after,
          filter_list = (before ++ data_filter :: after)%list /\
          out = (stdout ++ before ++ [data_filter])%list
    end.
Proof.
  induction filter_list as [|name rest IH]; intros ocdata stdout.
  - simpl. rewrite app_nil_r. auto.
  - cbn [OCFilterProvider.__run__].
    pose proof (call_filter_on_table name ocdata) as Call.
    destruct (OCFilterProvider.call_filter to_datetime name _) as [[t|o]|e obj].
    + specialize (IH t (stdout ++ [name])%list).
      destruct (OCFilterProvider.__run__ to_datetime rest _ _) as [v out|e obj out].
      * destruct IH as [-> Hv]. rewrite <- app_assoc. split; [reflexivity|].
        destruct v as [t'|o'].
        -- intros [E|H]; [exact (Call E)|contradiction].
        -- destruct Hv as [before [-> Hb]]. exists (name :: before). split; [reflexivity|].
           intros [E|H]; [exact (Call E)|contradiction].
      * destruct IH as [before [f [after [-> ->]]]].
        exists (name :: before), f, after. rewrite <- app_assoc. auto.
    + subst name. destruct rest as [|next rest'].
      * simpl. split; [reflexivity|]. exists []. auto.
      * cbn [OCFilterProvider.__run__].
        destruct (call_filter_on_none next o) as [e ->].
        exists ["type_casting"], next, rest'. rewrite <- app_assoc. auto.
    + exists [], name, rest. auto.
Qed.

(** X12. What a run leaves on [stdout] and in [data_frame]. When the
    constructor returns, every requested filter was announced, in
    order, and [type_casting] is nowhere in the list but possibly at
    its end (a filter after it would have been handed [None]);
    [data_frame] is then [None] exactly when the list ends with
    [type_casting]. When the constructor raises, either nothing was
    announced and the error is the ValueError of the name check, or the
    filters announced are the requested ones up to and including the
    one that raised. *)
Theorem run_announces_filters (data_frame : frame string) (filter_list : list string) :
  match OCFilterProvider.__init__ to_datetime data_frame filter_list with
  | OCFilterProvider.Finished v out =>
      out = filter_list /\
      match v with
      | OCFilterProvider.Table _ => ~ In "type_casting" filter_list
      | OCFilterProvider.NoneAfter _ =>
          exists before,
            filter_list = (before ++ ["type_casting"])%list /\
            ~ In "type_casting" before
      end
  | OCFilterProvider.Aborted e _ out =>
      (out = [] /\ e = UnknownFilter OCFilterProvider.unknown_filter_message) \/
      (exists before data_filter after,
         filter_list = (before ++ data_filter :: after)%list /\
         out = (before ++ [data_filter])%list)
  end.
Proof.
  unfold OCFilterProvider.__init__.
  destruct (negb (OCFilterProvider.issubset filter_list OCFilterProvider.AVAILABLE));
    [left; auto|].
  pose proof (run_from_table filter_list data_frame []) as K.
  destruct (OCFilterProvider.__run__ to_datetime filter_list _ _) as [v out|e obj out].
  - exact K.
  - right. exact K.
Qed.

End CastingExtras.

Lemma type_casting_leaves_other_columns_witness :
  select "Analystcomments"
    (fst (OCFilterProvider.type_casting (fun _ => None)
            (mkFrame 1 [("Analystcomments", [Text "checked"]);
                        ("Annoy", [Text "not a number"])])))
  = select "Analystcomments"
      (mkFrame 1 [("Analystcomments", [Text "checked"]);
                  ("Annoy", [Text "not a number"])]).
Proof.
  apply (type_casting_leaves_other_columns (fun _ => None) "Analystcomments"
           (mkFrame 1 [("Analystcomments", [Text "checked"]);
                       ("Annoy", [Text "not a number"])])).
  simpl. intuition discriminate.
Defined.

(** ** Row counts, on an example *)

Lemma filters_keep_row_count_witness :
  nrows (mkFrame 2 [("Type", [Text "Waste"; Text "Urban"]);
                    ("Intensityoverride", [Text "3"; Text ""]);
                    ("Typeoverride", [Text ""; Text ""]);
                    ("Subtypeoverride", [Text ""; Text ""])])
  = nrows (mkFrame 2 [("Type", ["Waste"; "Urban"]); ("Intensityoverride", ["3"; ""])]) /\
  well_formed (mkFrame 2 [("Type", [Text "Waste"; Text "Urban"]);
                          ("Intensityoverride", [Text "3"; Text ""]);
                          ("Typeoverride", [Text ""; Text ""]);
                          ("Subtypeoverride", [Text ""; Text ""])]).
Proof.
  apply (filters_keep_row_count (fun _ => None) "add_analyst_fields"
           (mkFrame 2 [("Type", ["Waste"; "Urban"]); ("Intensityoverride", ["3"; ""])])).
  repeat constructor.
Defined.

(** ** The folder of a configuration *)

(** X16. The constructor of [OCMapConfig] keeps the last component of
    the path it is given, so that a folder named by an absolute or
    nested path is looked for under its bare name: for a name with no
    separator in it, any directory in front of it makes no difference
    to the test made, to the folder kept or to the error raised. *)
Theorem config_folder_is_last_component (isdir : string -> bool) (dir name : string) :
  occurs slash name = false ->
  OCMapConfig.__init__ isdir (dir ++ "/" ++ name) = OCMapConfig.__init__ isdir name.
Proof.
  intros H. unfold OCMapConfig.__init__.
  rewrite (basename_app dir name H), (basename_of_name name H). reflexivity.
Qed.

Lemma config_folder_is_last_component_witness :
  OCMapConfig.__init__ (String.eqb "mapconf") ("/srv/app" ++ "/" ++ "mapconf")
  = OCMapConfig.__init__ (String.eqb "mapconf") "mapconf".
Proof.
  apply (config_folder_is_last_component (String.eqb "mapconf") "/srv/app" "mapconf").
  reflexivity.
Defined.
